(** * F5 iHealth MCP server: a shallow embedding of [server.py]

    The Python module is translated function by function.  Python values
    that travel through the program untyped (the token, decoded JSON
    bodies, the dictionaries returned by the gateway) are values of the
    inductive type [json].  Effects are explicit: every function of the
    module runs in the monad [M], which reads an immutable [host] (process
    environment, clock, file system, the remote services and the Python
    library routines the module calls) and threads a mutable [store] (the
    module-level token cache, and the log of the HTTP requests issued so
    far).  An exception leaves the store as it was when it was raised, as
    in Python.

    Modelling conventions:
    - a [str] is the string of its UTF-8 bytes.  [method.upper()] is
      computed on ASCII text and left to the host for a text with other
      characters (Unicode case mapping sends some of them to ASCII capitals);
      [output_format.lower()] is compared with json, xml, pdf and csv only,
      words that no character outside A-Z lower-cases into;
    - timestamps and JSON numbers are exact integers (seconds); the float
      rounding of [time.time()] is not modelled, the overflow of an integer
      too large for a float is;
    - calls to [logger] write to stderr only and are left out. *)

From Stdlib Require Import String Ascii List ZArith Lia Bool DecimalString.
Import ListNotations.
Local Open Scope string_scope.
Local Open Scope Z_scope.

(** ** Strings *)

Module Str.

Definition is_lower (c : ascii) : bool :=
  ((97 <=? nat_of_ascii c) && (nat_of_ascii c <=? 122))%nat.

Definition is_upper (c : ascii) : bool :=
  ((65 <=? nat_of_ascii c) && (nat_of_ascii c <=? 90))%nat.

Definition upper_char (c : ascii) : ascii :=
  if is_lower c then ascii_of_nat (nat_of_ascii c - 32) else c.

Definition lower_char (c : ascii) : ascii :=
  if is_upper c then ascii_of_nat (nat_of_ascii c + 32) else c.

(** only bytes below 128: the text is ASCII *)
Fixpoint is_ascii (s : string) : bool :=
  match s with
  | EmptyString => true
  | String c r => (nat_of_ascii c <? 128)%nat && is_ascii r
  end.

(** [s.upper()] for an ASCII text *)
Fixpoint ascii_upper (s : string) : string :=
  match s with
  | EmptyString => EmptyString
  | String c r => String (upper_char c) (ascii_upper r)
  end.

(** [s.lower()], as far as the comparison with ASCII words goes *)
Fixpoint lower (s : string) : string :=
  match s with
  | EmptyString => EmptyString
  | String c r => String (lower_char c) (lower r)
  end.

(** [needle in hay] on strings *)
Fixpoint contains (needle hay : string) : bool :=
  String.prefix needle hay ||
  match hay with
  | EmptyString => false
  | String _ r => contains needle r
  end.

(** truth value of a string: [if s:] *)
Definition nonempty (s : string) : bool :=
  match s with EmptyString => false | String _ _ => true end.

(** [str(n)] for an integer, as an f-string prints it *)
Definition of_int (n : Z) : string := NilZero.string_of_int (Z.to_int n).

(** [os.path.basename]: what follows the last slash *)
Fixpoint basename_aux (s acc : string) : string :=
  match s with
  | EmptyString => acc
  | String c r =>
      if Ascii.eqb c "/" then basename_aux r r else basename_aux r acc
  end.

Definition basename (p : string) : string := basename_aux p p.

End Str.

(** ** Python values *)

#[warnings="-register-all"]
Inductive json : Type :=
| JNull
| JBool (b : bool)
| JNum (n : Z)
| JStr (s : string)
| JArr (items : list json)
| JObj (fields : list (string * json)).

(** an association list read as a Python dict, keys in insertion order *)
Fixpoint dict_get {V : Type} (k : string) (d : list (string * V)) : option V :=
  match d with
  | [] => None
  | (k', v) :: r => if String.eqb k k' then Some v else dict_get k r
  end.

Definition dict_get_default {V : Type} (k : string) (d : list (string * V)) (dflt : V) : V :=
  match dict_get k d with Some v => v | None => dflt end.

Fixpoint dict_set {V : Type} (k : string) (v : V) (d : list (string * V)) : list (string * V) :=
  match d with
  | [] => [(k, v)]
  | (k', v') :: r => if String.eqb k k' then (k, v) :: r else (k', v') :: dict_set k v r
  end.

(** truth value of a Python value: [if v:] *)
Definition truthy (v : json) : bool :=
  match v with
  | JNull => false
  | JBool b => b
  | JNum n => negb (n =? 0)
  | JStr s => Str.nonempty s
  | JArr l => match l with [] => false | _ => true end
  | JObj f => match f with [] => false | _ => true end
  end.

Definition type_name (v : json) : string :=
  match v with
  | JNull => "NoneType"
  | JBool _ => "bool"
  | JNum _ => "int"
  | JStr _ => "str"
  | JArr _ => "list"
  | JObj _ => "dict"
  end.

(** ** HTTP messages *)

Definition headers := list (string * string).
Definition form := list (string * string).

(** one part of a multipart upload: [(filename, f, content_type)], the open
    file [f] being named by the path it was opened from *)
Record file_part := {
  part_filename : string;
  part_source : string;
  part_content_type : string
}.

Inductive body : Type :=
| NoBody
| Content (raw : string)
| FormData (data : option form) (files : option (list (string * file_part))).

Record http_request := {
  req_method : string;
  req_url : string;
  req_headers : headers;
  req_body : body;
  req_timeout : Z;
  req_follow_redirects : bool
}.

(** a response as the module reads it: [status_code],
    [headers.get("content-type")], [content], [text], and [json()], which
    either yields a value or raises (the description of the exception on
    the left) *)
Record response := {
  status_code : Z;
  content_type : option string;
  content : string;
  text : string;
  json_body : string + json
}.

Inductive http_reply : Type :=
| Reply (r : response)
| TransportFailure (description : string).

(** ** Exceptions *)

Inductive exn : Type :=
| ValueError (msg : string)
| HTTPStatusError (r : response)
| OtherException (description : string).

Inductive outcome (A : Type) : Type :=
| Ok (a : A)
| Raise (e : exn).
Arguments Ok {A} a.
Arguments Raise {A} e.

(** ** Host and store *)

Record host := {
  environ : list (string * string);       (* os.environ *)
  time_time : Z;                          (* time.time() *)
  path_exists : string -> bool;           (* os.path.exists *)
  open_error : string -> option string;   (* open(p, "rb"): str(e) when it raises *)
  remote : http_request -> http_reply;    (* the token service and the API *)
  json_dumps : json -> string;            (* json.dumps(v, indent=2, default=str) *)
  py_repr : json -> string;               (* str(v) of a value that is not a str *)
  b64encode : string -> string;           (* base64.b64encode(s.encode()).decode() *)
  unicode_upper : string -> string;       (* s.upper() of a text that is not ASCII *)
  status_error_str : response -> string   (* str(e) of an httpx.HTTPStatusError *)
}.

Record token_cache := {
  token : json;
  expires_at : Z
}.

Record store := {
  _token_cache : token_cache;
  net_log : list http_request
}.

(** [_token_cache = {"token": None, "expires_at": 0}] at import time *)
Definition initial_store : store :=
  {| _token_cache := {| token := JNull; expires_at := 0 |}; net_log := [] |}.

(** ** The monad *)

Definition M (A : Type) : Type := host -> store -> outcome A * store.

Definition ret {A} (a : A) : M A := fun _ s => (Ok a, s).

Definition bind {A B} (m : M A) (k : A -> M B) : M B :=
  fun h s =>
    match m h s with
    | (Ok a, s') => k a h s'
    | (Raise e, s') => (Raise e, s')
    end.

Definition raise {A} (e : exn) : M A := fun _ s => (Raise e, s).

(** [try: m  except ... as e: handler e] *)
Definition try_except {A} (m : M A) (handler : exn -> M A) : M A :=
  fun h s =>
    match m h s with
    | (Ok a, s') => (Ok a, s')
    | (Raise e, s') => handler e h s'
    end.

Definition ask : M host := fun h s => (Ok h, s).
Definition get_store : M store := fun _ s => (Ok s, s).
Definition put_store (s : store) : M unit := fun _ _ => (Ok tt, s).

Declare Scope py_scope.
Delimit Scope py_scope with py.
Notation "x <- m ;; k" := (bind m (fun x => k))
  (at level 100, m at next level, right associativity) : py_scope.
Notation "m ;;; k" := (bind m (fun _ => k))
  (at level 100, right associativity) : py_scope.
Local Open Scope py_scope.

(** [str(e)] *)
Definition exn_str (h : host) (e : exn) : string :=
  match e with
  | ValueError msg => msg
  | HTTPStatusError r => status_error_str h r
  | OtherException d => d
  end.

(** [str(v)], also what an f-string inserts for [{v}] *)
Definition py_str (h : host) (v : json) : string :=
  match v with
  | JStr s => s
  | _ => py_repr h v
  end.

(** [s.upper()] *)
Definition upper (h : host) (s : string) : string :=
  if Str.is_ascii s then Str.ascii_upper s else unicode_upper h s.

(** ** Module constants *)

Definition TOKEN_URL : string :=
  "https://identity.account.f5.com/oauth2/ausp95ykc80HOU7SQ357/v1/token".
Definition API_BASE_URL : string := "https://ihealth2-api.f5.com/qkview-analyzer/api".
Definition USER_AGENT : string := "F5iHealthMCPServer/1.0".
Definition ACCEPT_HEADER : string := "application/vnd.f5.ihealth.api".

(** ** httpx *)

(** issuing a request: it is logged, then the remote side answers or the
    transport raises *)
Definition send (req : http_request) : M response :=
  fun h s =>
    let s' := {| _token_cache := _token_cache s; net_log := net_log s ++ [req] |} in
    match remote h req with
    | Reply r => (Ok r, s')
    | TransportFailure d => (Raise (OtherException d), s')
    end.

(** [response.raise_for_status()]: every status outside 200..299 raises *)
Definition is_success (st : Z) : bool := (200 <=? st) && (st <=? 299).

Definition raise_for_status (r : response) : M unit :=
  if is_success (status_code r) then ret tt else raise (HTTPStatusError r).

(** [response.json()] *)
Definition response_json (r : response) : M json :=
  match json_body r with
  | inr v => ret v
  | inl d => raise (OtherException d)
  end.

(** ** Credential provider *)

Definition missing_credentials_msg : string :=
  "F5_IHEALTH_CLIENT_ID and F5_IHEALTH_CLIENT_SECRET environment variables are required".

Definition get_credentials : M (string * string) :=
  h <- ask ;;
  let client_id := dict_get_default "F5_IHEALTH_CLIENT_ID" (environ h) "" in
  let client_secret := dict_get_default "F5_IHEALTH_CLIENT_SECRET" (environ h) "" in
  if negb (Str.nonempty client_id) || negb (Str.nonempty client_secret)
  then raise (ValueError missing_credentials_msg)
  else ret (client_id, client_secret).

(** ** Token manager *)

(** [token_data["access_token"]] *)
Definition subscript_access_token (token_data : json) : M json :=
  match token_data with
  | JObj f =>
      match dict_get "access_token" f with
      | Some v => ret v
      | None => raise (OtherException "'access_token'")
      end
  | JArr _ => raise (OtherException "list indices must be integers or slices, not str")
  | JStr _ => raise (OtherException "string indices must be integers, not 'str'")
  | v => raise (OtherException ("'" ++ type_name v ++ "' object is not subscriptable"))
  end.

(** [token_data.get("expires_in", 1800)], once the subscript above passed *)
Definition get_expires_in (token_data : json) : json :=
  match token_data with
  | JObj f => dict_get_default "expires_in" f (JNum 1800)
  | _ => JNum 1800
  end.

(** an int is added to the float [current_time] after its conversion to a
    float, which raises OverflowError from 2^1024 - 2^970 on, the first
    integer that rounds beyond the largest float *)
Definition float_limit : Z := 2 ^ 1024 - 2 ^ 970.

Definition fits_float (n : Z) : bool := Z.abs n <? float_limit.

(** [current_time + v] *)
Definition add_seconds (current_time : Z) (v : json) : M Z :=
  match v with
  | JNum n =>
      if fits_float n then ret (current_time + n)
      else raise (OtherException "int too large to convert to float")
  | JBool b => ret (current_time + (if b then 1 else 0))
  | _ => raise (OtherException
           ("unsupported operand type(s) for +: 'float' and '" ++ type_name v ++ "'"))
  end.

Definition set_cache_token (v : json) : M unit :=
  s <- get_store ;;
  put_store {| _token_cache := {| token := v; expires_at := expires_at (_token_cache s) |};
               net_log := net_log s |}.

Definition set_cache_expires_at (t : Z) : M unit :=
  s <- get_store ;;
  put_store {| _token_cache := {| token := token (_token_cache s); expires_at := t |};
               net_log := net_log s |}.

(** the request of the client-credentials exchange *)
Definition token_request (h : host) (client_id client_secret : string) : http_request :=
  let credentials := client_id ++ ":" ++ client_secret in
  let encoded_credentials := b64encode h credentials in
  {| req_method := "POST";
     req_url := TOKEN_URL;
     req_headers :=
       [("Accept", "application/json");
        ("Authorization", "Basic " ++ encoded_credentials);
        ("Content-Type", "application/x-www-form-urlencoded");
        ("Cache-Control", "no-cache")];
     req_body := Content "grant_type=client_credentials&scope=ihealth";
     req_timeout := 30;
     req_follow_redirects := false |}.

(** the client-credentials exchange: the [try] block of [get_auth_token]
    with its two handlers (lines 59 to 73) *)
Definition exchange (current_time : Z) (client_id client_secret : string) : M json :=
  h <- ask ;;
  try_except
    (response <- send (token_request h client_id client_secret) ;;
     raise_for_status response ;;;
     token_data <- response_json response ;;
     access_token <- subscript_access_token token_data ;;
     set_cache_token access_token ;;;
     expiry <- add_seconds current_time (get_expires_in token_data) ;;
     set_cache_expires_at expiry ;;;
     s' <- get_store ;;
     ret (token (_token_cache s')))
    (fun e =>
       match e with
       | HTTPStatusError r =>
           raise (ValueError ("Authentication failed: " ++ Str.of_int (status_code r)))
       | _ =>
           raise (ValueError ("Authentication failed: " ++ exn_str h e))
       end).

Definition get_auth_token : M json :=
  h <- ask ;;
  s <- get_store ;;
  let current_time := time_time h in
  if truthy (token (_token_cache s)) && (current_time <? expires_at (_token_cache s) - 60)
  then ret (token (_token_cache s))
  else
    creds <- get_credentials ;;
    let '(client_id, client_secret) := creds in
    exchange current_time client_id client_secret.

(** ** HTTP gateway *)

Definition supported_method (h : host) (method : string) : bool :=
  String.eqb (upper h method) "GET" || String.eqb (upper h method) "POST" ||
  String.eqb (upper h method) "PUT" || String.eqb (upper h method) "DELETE".

Definition files_truthy (files : option (list (string * file_part))) : bool :=
  match files with
  | Some (_ :: _) => true
  | _ => false
  end.

Definition api_request (method url : string) (hdrs : headers) (b : body) : http_request :=
  {| req_method := method;
     req_url := url;
     req_headers := hdrs;
     req_body := b;
     req_timeout := 120;
     req_follow_redirects := true |}.

(** the method dispatch of the gateway (lines 88 to 100) *)
Definition dispatch (method url : string) (hdrs : headers)
    (data : option form) (files : option (list (string * file_part))) : M response :=
  fun h =>
    (if String.eqb (upper h method) "GET" then
       send (api_request "GET" url hdrs NoBody)
     else if String.eqb (upper h method) "POST" then
       if files_truthy files
       then send (api_request "POST" url hdrs (FormData data files))
       else send (api_request "POST" url hdrs (FormData data None))
     else if String.eqb (upper h method) "PUT" then
       send (api_request "PUT" url hdrs (FormData data None))
     else if String.eqb (upper h method) "DELETE" then
       send (api_request "DELETE" url hdrs NoBody)
     else raise (ValueError ("Unsupported HTTP method: " ++ method))) h.

Definition accepted_pending : json :=
  JObj [("status", JStr "processing");
        ("message", JStr "Request accepted, processing in progress. Retry in 10 seconds.")].

(** the classification of the response (lines 101 to 112) *)
Definition classify (r : response) : M json :=
  if status_code r =? 202 then ret accepted_pending
  else
    raise_for_status r ;;;
    let ct := match content_type r with Some v => v | None => "" end in
    if Str.contains "application/json" ct
       || Str.contains "application/vnd.f5.ihealth.api+json" ct
    then response_json r
    else if Str.contains "application/xml" ct || Str.contains "text/xml" ct
    then ret (JObj [("xml_content", JStr (text r))])
    else if Str.contains "application/octet-stream" ct
    then ret (JObj [("binary_size", JNum (Z.of_nat (String.length (content r))));
                    ("message", JStr "Binary content retrieved successfully")])
    else ret (JObj [("content", JStr (text r))]).

Definition gateway_headers (h : host) (tok : json) (accept : string) : headers :=
  [("Authorization", "Bearer " ++ py_str h tok);
   ("Accept", accept);
   ("User-Agent", USER_AGENT)].

(** the two handlers of the gateway (lines 113 to 118) *)
Definition gateway_except (h : host) (e : exn) : M json :=
  match e with
  | HTTPStatusError r =>
      ret (JObj [("error", JStr ("API request failed: " ++ Str.of_int (status_code r)));
                 ("details", JStr (text r))])
  | _ =>
      ret (JObj [("error", JStr ("API request failed: " ++ exn_str h e))])
  end.

Definition make_api_request (method endpoint accept_type : string)
    (data : option form) (files : option (list (string * file_part))) : M json :=
  h <- ask ;;
  tok <- get_auth_token ;;
  let accept := if Str.nonempty accept_type then accept_type else ACCEPT_HEADER in
  let hdrs := gateway_headers h tok accept in
  let url := API_BASE_URL ++ endpoint in
  try_except
    (response <- dispatch method url hdrs data files ;;
     classify response)
    (gateway_except h).

(** ** Response formatter *)

Definition newline : string := String (ascii_of_nat 10) EmptyString.

Definition format_response (h : host) (data : json) : string :=
  match data with
  | JObj f =>
      match dict_get "error" f with
      | Some err =>
          "Error: " ++ py_str h err ++ newline ++ "Details: " ++
          py_str h (dict_get_default "details" f (JStr "No additional details"))
      | None => json_dumps h data
      end
  | _ => py_str h data
  end.

(** ** Tool surface *)

(** the common tail of a tool: one gateway call, then the formatter *)
Definition call_api (method endpoint accept_type : string)
    (data : option form) (files : option (list (string * file_part))) : M string :=
  h <- ask ;;
  result <- make_api_request method endpoint accept_type data files ;;
  ret (format_response h result).

Definition qkview_id_required : string := "Error: qkview_id parameter is required".

Definition list_qkviews : M string :=
  call_api "GET" "/qkviews" "" None None.

(** [open(file_path, "rb")] *)
Definition open_rb (file_path : string) : M string :=
  h <- ask ;;
  match open_error h file_path with
  | Some d => raise (OtherException d)
  | None => ret file_path
  end.

(** [if v: data[k] = v] *)
Definition set_if (k v : string) (data : form) : form :=
  if Str.nonempty v then dict_set k v data else data.

Definition upload_qkview (file_path description visible_in_gui f5_support_case
    share_with_case_owner : string) : M string :=
  h <- ask ;;
  if negb (Str.nonempty file_path) then ret "Error: file_path parameter is required"
  else if negb (path_exists h file_path) then ret ("Error: File not found: " ++ file_path)
  else
    try_except
      (f <- open_rb file_path ;;
       let files :=
         [("qkview", {| part_filename := Str.basename file_path;
                        part_source := f;
                        part_content_type := "application/octet-stream" |})] in
       let data := [] in
       let data := set_if "description" description data in
       let data := set_if "visible_in_gui" visible_in_gui data in
       let data := set_if "f5_support_case" f5_support_case data in
       let data := set_if "share_with_case_owner" share_with_case_owner data in
       result <- make_api_request "POST" "/qkviews" "" (Some data) (Some files) ;;
       ret (format_response h result))
      (fun e => ret ("Error uploading QKView: " ++ exn_str h e)).

Definition delete_qkview (qkview_id : string) : M string :=
  if negb (Str.nonempty qkview_id) then ret qkview_id_required
  else call_api "DELETE" ("/qkviews/" ++ qkview_id) "" None None.

Definition delete_all_qkviews : M string :=
  call_api "DELETE" "/qkviews" "" None None.

Definition get_qkview_metadata (qkview_id : string) : M string :=
  if negb (Str.nonempty qkview_id) then ret qkview_id_required
  else call_api "GET" ("/qkviews/" ++ qkview_id) "" None None.

Definition update_qkview_metadata (qkview_id description visible_in_gui f5_support_case
    non_f5_case : string) : M string :=
  if negb (Str.nonempty qkview_id) then ret qkview_id_required
  else
    let data := [] in
    let data := set_if "description" description data in
    let data := set_if "visible_in_gui" visible_in_gui data in
    let data := set_if "f5_support_case" f5_support_case data in
    let data := set_if "non_f5_case" non_f5_case data in
    match data with
    | [] => ret "Error: At least one metadata field must be provided to update"
    | _ => call_api "PUT" ("/qkviews/" ++ qkview_id) "" (Some data) None
    end.

Definition format_map : list (string * string) :=
  [("json", "application/vnd.f5.ihealth.api+json");
   ("xml", "application/vnd.f5.ihealth.api+xml");
   ("pdf", "application/pdf");
   ("csv", "text/csv")].

Definition get_qkview_diagnostics (qkview_id diagnostic_set output_format : string)
    : M string :=
  if negb (Str.nonempty qkview_id) then ret qkview_id_required
  else
    let endpoint := "/qkviews/" ++ qkview_id ++ "/diagnostics" in
    let endpoint :=
      if existsb (String.eqb diagnostic_set) ["hit"; "miss"]
      then endpoint ++ "?set=" ++ diagnostic_set
      else endpoint in
    let accept_type :=
      dict_get_default (Str.lower output_format) format_map
        "application/vnd.f5.ihealth.api+json" in
    call_api "GET" endpoint accept_type None None.

Definition get_diagnostics_hits (qkview_id : string) : M string :=
  if negb (Str.nonempty qkview_id) then ret qkview_id_required
  else call_api "GET" ("/qkviews/" ++ qkview_id ++ "/diagnostics?set=hit") "" None None.

Definition get_diagnostics_misses (qkview_id : string) : M string :=
  if negb (Str.nonempty qkview_id) then ret qkview_id_required
  else call_api "GET" ("/qkviews/" ++ qkview_id ++ "/diagnostics?set=miss") "" None None.

Definition list_qkview_files (qkview_id : string) : M string :=
  if negb (Str.nonempty qkview_id) then ret qkview_id_required
  else call_api "GET" ("/qkviews/" ++ qkview_id ++ "/files") "" None None.

Definition get_qkview_file (qkview_id file_hash : string) : M string :=
  if negb (Str.nonempty qkview_id) then ret qkview_id_required
  else if negb (Str.nonempty file_hash) then ret "Error: file_hash parameter is required"
  else call_api "GET" ("/qkviews/" ++ qkview_id ++ "/files/" ++ file_hash)
         "application/octet-stream" None None.

Definition download_original_qkview (qkview_id : string) : M string :=
  if negb (Str.nonempty qkview_id) then ret qkview_id_required
  else call_api "GET" ("/qkviews/" ++ qkview_id ++ "/files/qkview")
         "application/octet-stream" None None.

Definition list_available_commands (qkview_id : string) : M string :=
  if negb (Str.nonempty qkview_id) then ret qkview_id_required
  else call_api "GET" ("/qkviews/" ++ qkview_id ++ "/commands") "" None None.

Definition get_command_output (qkview_id command_name : string) : M string :=
  if negb (Str.nonempty qkview_id) then ret qkview_id_required
  else if negb (Str.nonempty command_name)
  then ret "Error: command_name parameter is required"
  else call_api "GET" ("/qkviews/" ++ qkview_id ++ "/commands/" ++ command_name)
         "" None None.

Definition get_bigip_info (qkview_id : string) : M string :=
  if negb (Str.nonempty qkview_id) then ret qkview_id_required
  else call_api "GET" ("/qkviews/" ++ qkview_id ++ "/bigip") "" None None.

Definition get_bigip_slot_info (qkview_id slot_number : string) : M string :=
  if negb (Str.nonempty qkview_id) then ret qkview_id_required
  else call_api "GET" ("/qkviews/" ++ qkview_id ++ "/bigip/" ++ slot_number) "" None None.

Definition get_hardware_info (qkview_id slot_number : string) : M string :=
  if negb (Str.nonempty qkview_id) then ret qkview_id_required
  else call_api "GET" ("/qkviews/" ++ qkview_id ++ "/bigip/" ++ slot_number ++ "/hardware")
         "" None None.

Definition get_software_info (qkview_id slot_number : string) : M string :=
  if negb (Str.nonempty qkview_id) then ret qkview_id_required
  else call_api "GET" ("/qkviews/" ++ qkview_id ++ "/bigip/" ++ slot_number ++ "/software")
         "" None None.

Definition get_license_info (qkview_id slot_number : string) : M string :=
  if negb (Str.nonempty qkview_id) then ret qkview_id_required
  else call_api "GET" ("/qkviews/" ++ qkview_id ++ "/bigip/" ++ slot_number ++ "/license")
         "" None None.

Definition get_api_info : M string :=
  call_api "GET" "/" "" None None.

Definition search_qkview_logs (qkview_id search_term : string) : M string :=
  if negb (Str.nonempty qkview_id) then ret qkview_id_required
  else if negb (Str.nonempty search_term)
  then ret "Error: search_term parameter is required"
  else call_api "GET" ("/qkviews/" ++ qkview_id ++ "/logs?search=" ++ search_term)
         "" None None.

Definition validate_credentials : M string :=
  h <- ask ;;
  try_except
    (tok <- get_auth_token ;;
     if truthy tok
     then ret "Success: F5 iHealth API credentials are valid and authentication successful."
     else ret "Error: Failed to obtain auth token")
    (fun e =>
       match e with
       | ValueError msg => ret ("Error: " ++ msg)
       | _ => ret ("Error validating credentials: " ++ exn_str h e)
       end).

(** *** The registry of [@mcp.tool()] functions

    A call names a tool and gives a string for each of its parameters (the
    host fills in the defaults of the signature for those it leaves out). *)

Inductive tool_call : Type :=
| Call_list_qkviews
| Call_upload_qkview (file_path description visible_in_gui f5_support_case
    share_with_case_owner : string)
| Call_delete_qkview (qkview_id : string)
| Call_delete_all_qkviews
| Call_get_qkview_metadata (qkview_id : string)
| Call_update_qkview_metadata (qkview_id description visible_in_gui f5_support_case
    non_f5_case : string)
| Call_get_qkview_diagnostics (qkview_id diagnostic_set output_format : string)
| Call_get_diagnostics_hits (qkview_id : string)
| Call_get_diagnostics_misses (qkview_id : string)
| Call_list_qkview_files (qkview_id : string)
| Call_get_qkview_file (qkview_id file_hash : string)
| Call_download_original_qkview (qkview_id : string)
| Call_list_available_commands (qkview_id : string)
| Call_get_command_output (qkview_id command_name : string)
| Call_get_bigip_info (qkview_id : string)
| Call_get_bigip_slot_info (qkview_id slot_number : string)
| Call_get_hardware_info (qkview_id slot_number : string)
| Call_get_software_info (qkview_id slot_number : string)
| Call_get_license_info (qkview_id slot_number : string)
| Call_get_api_info
| Call_search_qkview_logs (qkview_id search_term : string)
| Call_validate_credentials.

Definition invoke (c : tool_call) : M string :=
  match c with
  | Call_list_qkviews => list_qkviews
  | Call_upload_qkview p d v c s => upload_qkview p d v c s
  | Call_delete_qkview q => delete_qkview q
  | Call_delete_all_qkviews => delete_all_qkviews
  | Call_get_qkview_metadata q => get_qkview_metadata q
  | Call_update_qkview_metadata q d v c n => update_qkview_metadata q d v c n
  | Call_get_qkview_diagnostics q d o => get_qkview_diagnostics q d o
  | Call_get_diagnostics_hits q => get_diagnostics_hits q
  | Call_get_diagnostics_misses q => get_diagnostics_misses q
  | Call_list_qkview_files q => list_qkview_files q
  | Call_get_qkview_file q f => get_qkview_file q f
  | Call_download_original_qkview q => download_original_qkview q
  | Call_list_available_commands q => list_available_commands q
  | Call_get_command_output q c => get_command_output q c
  | Call_get_bigip_info q => get_bigip_info q
  | Call_get_bigip_slot_info q n => get_bigip_slot_info q n
  | Call_get_hardware_info q n => get_hardware_info q n
  | Call_get_software_info q n => get_software_info q n
  | Call_get_license_info q n => get_license_info q n
  | Call_get_api_info => get_api_info
  | Call_search_qkview_logs q t => search_qkview_logs q t
  | Call_validate_credentials => validate_credentials
  end.

(** the [qkview_id] argument of a call, for the tools that have the parameter *)
Definition qkview_id_of (c : tool_call) : option string :=
  match c with
  | Call_delete_qkview q
  | Call_get_qkview_metadata q
  | Call_update_qkview_metadata q _ _ _ _
  | Call_get_qkview_diagnostics q _ _
  | Call_get_diagnostics_hits q
  | Call_get_diagnostics_misses q
  | Call_list_qkview_files q
  | Call_get_qkview_file q _
  | Call_download_original_qkview q
  | Call_list_available_commands q
  | Call_get_command_output q _
  | Call_get_bigip_info q
  | Call_get_bigip_slot_info q _
  | Call_get_hardware_info q _
  | Call_get_software_info q _
  | Call_get_license_info q _
  | Call_search_qkview_logs q _ => Some q
  | _ => None
  end.

(** ** Reference library routines and sample hosts

    Executable stand-ins for the library routines a [host] provides, used
    by the sample hosts below.  They cover the values of this model
    (integers, ASCII text); the theorems hold for every host. *)

Module Ref.

Definition dquote : string := String (ascii_of_nat 34) EmptyString.
Definition squote : string := String (ascii_of_nat 39) EmptyString.
Definition backslash : string := String (ascii_of_nat 92) EmptyString.

Definition escape_char (quote : nat) (c : ascii) : string :=
  let n := nat_of_ascii c in
  if (n =? quote)%nat then backslash ++ String c EmptyString
  else if (n =? 92)%nat then backslash ++ backslash
  else if (n =? 10)%nat then backslash ++ "n"
  else if (n =? 13)%nat then backslash ++ "r"
  else if (n =? 9)%nat then backslash ++ "t"
  else String c EmptyString.

Fixpoint escape (quote : nat) (s : string) : string :=
  match s with
  | EmptyString => EmptyString
  | String c r => escape_char quote c ++ escape quote r
  end.

Definition json_quote (s : string) : string := dquote ++ escape 34 s ++ dquote.

(** [repr] of a str: single quotes, unless the text has one and no double quote *)
Definition repr_str (s : string) : string :=
  if Str.contains squote s && negb (Str.contains dquote s)
  then dquote ++ escape 34 s ++ dquote
  else squote ++ escape 39 s ++ squote.

Fixpoint pad (n : nat) : string :=
  match n with
  | O => EmptyString
  | S k => " " ++ pad k
  end.

Definition lines (lvl : nat) (opening closing : string) (items : list string) : string :=
  match items with
  | [] => opening ++ closing
  | _ =>
      opening ++ newline ++
      String.concat ("," ++ newline) (map (fun i => pad (2 * S lvl) ++ i) items) ++
      newline ++ pad (2 * lvl) ++ closing
  end.

Fixpoint dumps (lvl : nat) (v : json) : string :=
  match v with
  | JNull => "null"
  | JBool b => if b then "true" else "false"
  | JNum n => Str.of_int n
  | JStr s => json_quote s
  | JArr items => lines lvl "[" "]" (map (dumps (S lvl)) items)
  | JObj fields =>
      lines lvl "{" "}"
        (map (fun kv => let '(k, x) := kv in json_quote k ++ ": " ++ dumps (S lvl) x) fields)
  end.

Fixpoint repr (v : json) : string :=
  match v with
  | JNull => "None"
  | JBool b => if b then "True" else "False"
  | JNum n => Str.of_int n
  | JStr s => repr_str s
  | JArr items => "[" ++ String.concat ", " (map repr items) ++ "]"
  | JObj fields =>
      "{" ++ String.concat ", "
               (map (fun kv => let '(k, x) := kv in repr_str k ++ ": " ++ repr x) fields)
          ++ "}"
  end.

Definition b64_alphabet : string :=
  "ABCDEFGHIJKLMNOPQRSTUVWXYZabcdefghijklmnopqrstuvwxyz0123456789+/".

Definition b64_digit (n : nat) : ascii :=
  match String.get n b64_alphabet with
  | Some c => c
  | None => "="%char
  end.

Fixpoint b64_bytes (l : list nat) : string :=
  match l with
  | [] => EmptyString
  | [a] =>
      String (b64_digit (a / 4)) (String (b64_digit (a mod 4 * 16)) "==")
  | [a; b] =>
      String (b64_digit (a / 4)) (String (b64_digit (a mod 4 * 16 + b / 16))
        (String (b64_digit (b mod 16 * 4)) "="))
  | a :: b :: c :: r =>
      String (b64_digit (a / 4)) (String (b64_digit (a mod 4 * 16 + b / 16))
        (String (b64_digit (b mod 16 * 4 + c / 64)) (String (b64_digit (c mod 64))
          (b64_bytes r))))
  end%nat.

Definition b64 (s : string) : string :=
  b64_bytes (map nat_of_ascii (list_ascii_of_string s)).

Definition status_str (r : response) : string :=
  "HTTP status error " ++ Str.of_int (status_code r).

(** stands for the Unicode case mapping: capitalises the ASCII letters of
    the text.  The sample runs pass ASCII methods, for which [upper] does
    not call it. *)
Definition unicode_upper (s : string) : string := Str.ascii_upper s.

End Ref.

(** a host with the given environment, clock and remote side, no files *)
Definition sample_host (env : list (string * string)) (now : Z)
    (rem : http_request -> http_reply) : host :=
  {| environ := env;
     time_time := now;
     path_exists := fun _ => false;
     open_error := fun _ => Some "[Errno 2] No such file or directory";
     remote := rem;
     json_dumps := Ref.dumps 0;
     py_repr := Ref.repr;
     b64encode := Ref.b64;
     unicode_upper := Ref.unicode_upper;
     status_error_str := Ref.status_str |}.

Definition sample_env : list (string * string) :=
  [("F5_IHEALTH_CLIENT_ID", "id"); ("F5_IHEALTH_CLIENT_SECRET", "secret")].

Definition plain_response (st : Z) (ct : string) (payload : string) : response :=
  {| status_code := st;
     content_type := Some ct;
     content := payload;
     text := payload;
     json_body := inl "Expecting value: line 1 column 1 (char 0)" |}.

Definition json_response (st : Z) (payload : string) (v : json) : response :=
  {| status_code := st;
     content_type := Some "application/json";
     content := payload;
     text := payload;
     json_body := inr v |}.

(** a token service that grants [tok] for [ttl] seconds, and an API that
    answers every request with [r] *)
Definition granting (tok : string) (ttl : Z) (r : response) (req : http_request)
    : http_reply :=
  if String.eqb (req_url req) TOKEN_URL
  then Reply (json_response 200 "{...}"
                (JObj [("access_token", JStr tok); ("expires_in", JNum ttl)]))
  else Reply r.

(** a store whose cache holds [tok] until [exp] *)
Definition store_with_token (tok : string) (exp : Z) : store :=
  {| _token_cache := {| token := JStr tok; expires_at := exp |}; net_log := [] |}.

(** no credentials in the environment, nothing reachable *)
Definition bare_host : host :=
  sample_host [] 1000 (fun _ => TransportFailure "connection refused").

(** ** Vocabulary of the specification *)

(** what [get_credentials] reads *)
Definition env_client_id (h : host) : string :=
  dict_get_default "F5_IHEALTH_CLIENT_ID" (environ h) "".

Definition env_client_secret (h : host) : string :=
  dict_get_default "F5_IHEALTH_CLIENT_SECRET" (environ h) "".

(** the cache holds a non-empty token and the clock is strictly before the
    recorded expiry minus 60 seconds *)
Definition cache_usable (h : host) (s : store) : Prop :=
  truthy (token (_token_cache s)) = true /\
  time_time h < expires_at (_token_cache s) - 60.


(** the API answers every request for [endpoint] with the response [r] *)
Definition api_answers (h : host) (endpoint : string) (r : response) : Prop :=
  forall req, req_url req = API_BASE_URL ++ endpoint -> remote h req = Reply r.

(** [response.headers.get("content-type", "")] *)
Definition content_type_of (r : response) : string :=
  match content_type r with Some v => v | None => "" end.

(** the query string the diagnostics tool appends, in the words of the
    specification *)
Definition diagnostics_query (diagnostic_set : string) : string :=
  if String.eqb diagnostic_set "hit" then "?set=hit"
  else if String.eqb diagnostic_set "miss" then "?set=miss"
  else "".

(** the media type an output format selects, in the words of the
    specification *)
Definition diagnostics_accept (output_format : string) : string :=
  let f := Str.lower output_format in
  if String.eqb f "json" then "application/vnd.f5.ihealth.api+json"
  else if String.eqb f "xml" then "application/vnd.f5.ihealth.api+xml"
  else if String.eqb f "pdf" then "application/pdf"
  else if String.eqb f "csv" then "text/csv"
  else "application/vnd.f5.ihealth.api+json".

(** a text of [n] copies of one character *)
Fixpoint replicate (n : nat) (c : ascii) : string :=
  match n with
  | O => EmptyString
  | S k => String c (replicate k c)
  end.

(** the store after one more request went out *)
Definition logged (s : store) (req : http_request) : store :=
  {| _token_cache := _token_cache s; net_log := (net_log s ++ [req])%list |}.


(** the body the gateway sends with a request, by upper-cased method *)
Definition gateway_body (upper_method : string) (data : option form)
    (files : option (list (string * file_part))) : body :=
  if String.eqb upper_method "POST"
  then FormData data (if files_truthy files then files else None)
  else if String.eqb upper_method "PUT" then FormData data None
  else NoBody.

(** the fields of a form whose value is not empty, in their order *)
Definition present_fields (fields : form) : form :=
  filter (fun kv => Str.nonempty (snd kv)) fields.

(** the API fails at the transport level on every request for [endpoint] *)
Definition api_fails (h : host) (endpoint : string) (d : string) : Prop :=
  forall req, req_url req = API_BASE_URL ++ endpoint -> remote h req = TransportFailure d.

Definition credentials_valid_text : string :=
  "Success: F5 iHealth API credentials are valid and authentication successful.".

(** the two kinds of request a tool call may send from host [h]: the token
    request with the configured credentials, or a request under the API base
    URL that carries a Bearer authorization *)
Definition tool_request (h : host) (req : http_request) : Prop :=
  req = token_request h (env_client_id h) (env_client_secret h) \/
  (String.prefix API_BASE_URL (req_url req) = true /\
   exists tok, dict_get "Authorization" (req_headers req) = Some ("Bearer " ++ tok)).

(** * Properties *)

(** ** Strings and the monad *)

Lemma nonempty_false (s : string) : Str.nonempty s = false <-> s = "".
Proof. destruct s; simpl; split; congruence. Qed.

Lemma nonempty_true (s : string) : Str.nonempty s = true <-> s <> "".
Proof. destruct s; simpl; split; congruence. Qed.

Lemma bind_ok {A B} (m : M A) (k : A -> M B) h s a s1 :
  m h s = (Ok a, s1) -> bind m k h s = k a h s1.
Proof. intros E. unfold bind. rewrite E. reflexivity. Qed.

Lemma bind_raise {A B} (m : M A) (k : A -> M B) h s e s1 :
  m h s = (Raise e, s1) -> bind m k h s = (Raise e, s1).
Proof. intros E. unfold bind. rewrite E. reflexivity. Qed.

Lemma try_except_ok {A} (m : M A) (hd : exn -> M A) h s a s1 :
  m h s = (Ok a, s1) -> try_except m hd h s = (Ok a, s1).
Proof. intros E. unfold try_except. rewrite E. reflexivity. Qed.

Lemma try_except_raise {A} (m : M A) (hd : exn -> M A) h s e s1 :
  m h s = (Raise e, s1) -> try_except m hd h s = hd e h s1.
Proof. intros E. unfold try_except. rewrite E. reflexivity. Qed.

(** ** Sample runs *)

(** a JSON answer is pretty-printed with an indentation of two *)
Example list_qkviews_json_run :
  fst (list_qkviews
         (sample_host sample_env 1000
            (granting "T" 3600 (json_response 200 "{...}" (JObj [("a", JNum 1)]))))
         initial_store) =
  Ok ("{" ++ newline ++ "  " ++ Ref.dquote ++ "a" ++ Ref.dquote ++ ": 1" ++ newline ++ "}").
Proof. reflexivity. Qed.

(** a transport failure of the API call comes back as text *)
Example list_qkviews_transport_failure_run :
  list_qkviews
    (sample_host sample_env 1000 (fun _ => TransportFailure "connection refused"))
    (store_with_token "T" 5000) =
  (Ok ("Error: API request failed: connection refused" ++ newline ++
       "Details: No additional details"),
   {| _token_cache := {| token := JStr "T"; expires_at := 5000 |};
      net_log :=
        [api_request "GET" "https://ihealth2-api.f5.com/qkview-analyzer/api/qkviews"
           [("Authorization", "Bearer T");
            ("Accept", "application/vnd.f5.ihealth.api");
            ("User-Agent", "F5iHealthMCPServer/1.0")]
           NoBody] |}).
Proof. reflexivity. Qed.

(** without credentials the probe answers with both variable names and
    sends nothing *)
Example validate_credentials_absent_run :
  validate_credentials bare_host initial_store =
  (Ok "Error: F5_IHEALTH_CLIENT_ID and F5_IHEALTH_CLIENT_SECRET environment variables are required",
   initial_store).
Proof. reflexivity. Qed.

(** a failed exchange after the token was stored: the new token stays in
    the cache with the old expiry *)
Example exchange_bad_expires_in_run :
  get_auth_token
    (sample_host sample_env 1000
       (fun _ => Reply (json_response 200 "{...}"
                   (JObj [("access_token", JStr "T"); ("expires_in", JStr "soon")]))))
    initial_store =
  (Raise (ValueError
     "Authentication failed: unsupported operand type(s) for +: 'float' and 'str'"),
   {| _token_cache := {| token := JStr "T"; expires_at := 0 |};
      net_log := [token_request
                    (sample_host sample_env 1000 (fun _ => TransportFailure ""))
                    "id" "secret"] |}).
Proof. reflexivity. Qed.

(** the method written with a long s (U+017F, two bytes in UTF-8), which
    the Unicode case mapping capitalises to POST: the gateway sends a POST *)
Example long_s_post_run :
  net_log (snd (make_api_request
    (String "p" (String "o" (String (ascii_of_nat 197) (String (ascii_of_nat 191) "t"))))
    "/qkviews" "" None None
    {| environ := sample_env; time_time := 1000;
       path_exists := fun _ => false; open_error := fun _ => None;
       remote := granting "T" 3600 (plain_response 200 "text/plain" "");
       json_dumps := Ref.dumps 0; py_repr := Ref.repr; b64encode := Ref.b64;
       unicode_upper := fun _ => "POST";
       status_error_str := Ref.status_str |}
    (store_with_token "T" 5000))) =
  [api_request "POST" "https://ihealth2-api.f5.com/qkview-analyzer/api/qkviews"
     [("Authorization", "Bearer T");
      ("Accept", "application/vnd.f5.ihealth.api");
      ("User-Agent", "F5iHealthMCPServer/1.0")]
     (FormData None None)].
Proof. reflexivity. Qed.

(** an [expires_in] too large for a float: the addition overflows after
    the token was stored *)
Example exchange_overflow_run :
  get_auth_token
    (sample_host sample_env 1000
       (fun _ => Reply (json_response 200 "{...}"
                   (JObj [("access_token", JStr "T"); ("expires_in", JNum (10 ^ 400))]))))
    initial_store =
  (Raise (ValueError "Authentication failed: int too large to convert to float"),
   {| _token_cache := {| token := JStr "T"; expires_at := 0 |};
      net_log := [token_request
                    (sample_host sample_env 1000 (fun _ => TransportFailure ""))
                    "id" "secret"] |}).
Proof. vm_compute. reflexivity. Qed.

(** ** Credential provider *)



(** ** Token manager *)

Lemma cache_usable_test h s :
  cache_usable h s <->
  truthy (token (_token_cache s)) &&
    (time_time h <? expires_at (_token_cache s) - 60) = true.
Proof.
  unfold cache_usable. rewrite andb_true_iff, Z.ltb_lt. tauto.
Qed.

Lemma get_auth_token_hit h s :
  cache_usable h s -> get_auth_token h s = (Ok (token (_token_cache s)), s).
Proof.
  intros Hu. apply cache_usable_test in Hu.
  unfold get_auth_token, bind, ask, get_store. rewrite Hu. reflexivity.
Qed.

(** on the refresh path the function is the exchange, run after the
    credentials were read *)
Lemma get_auth_token_miss h s :
  ~ cache_usable h s ->
  get_auth_token h s =
  bind get_credentials (fun creds =>
    exchange (time_time h) (fst creds) (snd creds)) h s.
Proof.
  intros Hu. rewrite cache_usable_test in Hu. apply not_true_is_false in Hu.
  unfold get_auth_token at 1. unfold bind at 1 2, ask, get_store.
  rewrite Hu. unfold bind.
  destruct (get_credentials h s) as [[[c1 c2] | e] s1]; reflexivity.
Qed.

Arguments get_expires_in : simpl never.
Arguments fits_float : simpl never.

Ltac run_monad :=
  unfold bind, ret, raise, try_except, ask, get_store, put_store in *; simpl in *.

(** the exchange sends exactly one request, whatever comes back *)
Lemma exchange_log t cid csec h s :
  net_log (snd (exchange t cid csec h s)) =
  (net_log s ++ [token_request h cid csec])%list.
Proof.
  unfold exchange, send, raise_for_status, response_json, subscript_access_token,
    set_cache_token, set_cache_expires_at, add_seconds.
  run_monad.
  destruct (remote h (token_request h cid csec)) as [r | d]; simpl; [| reflexivity].
  destruct (is_success (status_code r)); run_monad; [| reflexivity].
  destruct (json_body r) as [d | v]; run_monad; [reflexivity |].
  destruct v as [| b | n | x | l | f]; run_monad; try reflexivity.
  destruct (dict_get "access_token" f) as [tok |]; run_monad; [| reflexivity].
  destruct (get_expires_in (JObj f)) as [| b | n | x | l | g]; run_monad;
    try destruct (fits_float n); reflexivity.
Qed.

(** every failure of the exchange surfaces as a [ValueError] *)
Lemma exchange_raises t cid csec h s e :
  fst (exchange t cid csec h s) = Raise e ->
  exists msg, e = ValueError ("Authentication failed: " ++ msg).
Proof.
  unfold exchange, send, raise_for_status, response_json, subscript_access_token,
    set_cache_token, set_cache_expires_at, add_seconds.
  run_monad.
  destruct (remote h (token_request h cid csec)) as [r | d]; simpl;
    [| intros E; inversion E; eauto].
  destruct (is_success (status_code r)); run_monad;
    [| intros E; inversion E; eauto].
  destruct (json_body r) as [d | v]; run_monad; [intros E; inversion E; eauto |].
  destruct v as [| b | n | x | l | f]; run_monad;
    try (intros E; inversion E; eauto; fail).
  destruct (dict_get "access_token" f) as [tok |]; run_monad;
    [| intros E; inversion E; eauto].
  destruct (get_expires_in (JObj f)) as [| b | n | x | l | g]; run_monad;
    try destruct (fits_float n); intros E; inversion E; eauto.
Qed.

(** a token the exchange returns is the [access_token] of a 2xx reply, and
    it is the token the cache holds afterwards *)
Lemma exchange_ok t cid csec h s tok :
  fst (exchange t cid csec h s) = Ok tok ->
  exists r f,
    remote h (token_request h cid csec) = Reply r /\
    is_success (status_code r) = true /\
    json_body r = inr (JObj f) /\
    dict_get "access_token" f = Some tok /\
    token (_token_cache (snd (exchange t cid csec h s))) = tok.
Proof.
  unfold exchange, send, raise_for_status, response_json, subscript_access_token,
    set_cache_token, set_cache_expires_at, add_seconds.
  run_monad.
  destruct (remote h (token_request h cid csec)) as [r | d]; simpl;
    [| discriminate].
  destruct (is_success (status_code r)) eqn:Es; run_monad; [| discriminate].
  destruct (json_body r) as [d | v] eqn:Ej; run_monad; [discriminate |].
  destruct v as [| b | n | x | l | f]; run_monad; try discriminate.
  destruct (dict_get "access_token" f) as [a |] eqn:Ea; run_monad; [| discriminate].
  destruct (get_expires_in (JObj f)) as [| b | n | x | l | g]; run_monad;
    try destruct (fits_float n); try discriminate;
    intros E; inversion E; subst; exists r, f; auto.
Qed.




(** ** Tools: local validation *)

(** C5: a tool that takes [qkview_id], called with the empty string for it,
    returns exactly "Error: qkview_id parameter is required" and leaves the
    store untouched: nothing is added to the request log (no token exchange,
    no API call) and the cache is not written. *)
Theorem qkview_id_required_short_circuit c h s :
  qkview_id_of c = Some "" ->
  invoke c h s = (Ok "Error: qkview_id parameter is required", s).
Proof.
  intros H. destruct c; simpl in H; try discriminate;
    injection H as ->; reflexivity.
Qed.

Lemma qkview_id_required_short_circuit_witness :
  invoke (Call_get_qkview_metadata "") bare_host initial_store =
    (Ok "Error: qkview_id parameter is required", initial_store) /\
  invoke (Call_delete_qkview "") bare_host initial_store =
    (Ok "Error: qkview_id parameter is required", initial_store).
Proof.
  split.
  - apply (qkview_id_required_short_circuit (Call_get_qkview_metadata "")). reflexivity.
  - apply (qkview_id_required_short_circuit (Call_delete_qkview "")). reflexivity.
Defined.

(** C10: [upload_qkview] with a non-empty [file_path] for which
    [os.path.exists] is false returns exactly "Error: File not found: "
    followed by the path, and leaves the store untouched (no token exchange,
    no API call). *)
Theorem upload_qkview_file_not_found file_path description visible_in_gui
    f5_support_case share_with_case_owner h s :
  file_path <> "" ->
  path_exists h file_path = false ->
  upload_qkview file_path description visible_in_gui f5_support_case
    share_with_case_owner h s
  = (Ok ("Error: File not found: " ++ file_path), s).
Proof.
  intros Hne Hex. apply nonempty_true in Hne.
  unfold upload_qkview. unfold bind at 1, ask.
  rewrite Hne, Hex. reflexivity.
Qed.

Lemma upload_qkview_file_not_found_witness :
  upload_qkview "/tmp/missing.qkview" "" "true" "" "false" bare_host initial_store
  = (Ok "Error: File not found: /tmp/missing.qkview", initial_store).
Proof.
  apply (upload_qkview_file_not_found "/tmp/missing.qkview" "" "true" "" "false"
           bare_host initial_store).
  - discriminate.
  - reflexivity.
Defined.

(** ** HTTP gateway *)

Lemma make_api_request_token_raise method endpoint accept_type data files h s e s1 :
  get_auth_token h s = (Raise e, s1) ->
  make_api_request method endpoint accept_type data files h s = (Raise e, s1).
Proof.
  intros E. unfold make_api_request. unfold bind at 1, ask.
  now apply bind_raise.
Qed.

Lemma make_api_request_token_ok method endpoint accept_type data files h s tok s1 :
  get_auth_token h s = (Ok tok, s1) ->
  make_api_request method endpoint accept_type data files h s =
  try_except
    (response <-
       dispatch method (API_BASE_URL ++ endpoint)
         (gateway_headers h tok
            (if Str.nonempty accept_type then accept_type else ACCEPT_HEADER))
         data files ;;
     classify response)
    (gateway_except h) h s1.
Proof.
  intros E. unfold make_api_request. unfold bind at 1, ask.
  now rewrite (bind_ok _ _ _ _ _ _ E).
Qed.

Lemma dispatch_unsupported method url hdrs data files h s :
  supported_method h method = false ->
  dispatch method url hdrs data files h s =
  (Raise (ValueError ("Unsupported HTTP method: " ++ method)), s).
Proof.
  unfold supported_method, dispatch. intros H.
  repeat (apply orb_false_elim in H; destruct H as [H ?]).
  repeat match goal with E : String.eqb _ _ = false |- _ => rewrite E; clear E end.
  reflexivity.
Qed.

Lemma dispatch_supported method url hdrs data files h s :
  supported_method h method = true ->
  exists req,
    req_url req = url /\ req_headers req = hdrs /\
    dispatch method url hdrs data files h s = send req h s.
Proof.
  unfold supported_method, dispatch. intros H.
  destruct (String.eqb (upper h method) "GET").
  { exists (api_request "GET" url hdrs NoBody). now repeat split. }
  destruct (String.eqb (upper h method) "POST").
  { destruct (files_truthy files).
    - exists (api_request "POST" url hdrs (FormData data files)). now repeat split.
    - exists (api_request "POST" url hdrs (FormData data None)). now repeat split. }
  destruct (String.eqb (upper h method) "PUT").
  { exists (api_request "PUT" url hdrs (FormData data None)). now repeat split. }
  destruct (String.eqb (upper h method) "DELETE").
  { exists (api_request "DELETE" url hdrs NoBody). now repeat split. }
  simpl in H. discriminate.
Qed.

(** classifying a response and handling an exception touch neither the
    cache nor the network *)
Lemma classify_store r h s : snd (classify r h s) = s.
Proof.
  unfold classify, raise_for_status, response_json. run_monad.
  destruct (status_code r =? 202); [reflexivity |].
  destruct (is_success (status_code r)); [| reflexivity]. simpl.
  repeat match goal with
         | |- context [if ?b then _ else _] => destruct b; simpl
         | |- context [match json_body r with _ => _ end] => destruct (json_body r); simpl
         end; reflexivity.
Qed.

Lemma classify_any_store r h s s' : fst (classify r h s) = fst (classify r h s').
Proof.
  unfold classify, raise_for_status, response_json. run_monad.
  destruct (status_code r =? 202); [reflexivity |].
  destruct (is_success (status_code r)); [| reflexivity]. simpl.
  repeat match goal with
         | |- context [if ?b then _ else _] => destruct b; simpl
         | |- context [match json_body r with _ => _ end] => destruct (json_body r); simpl
         end; reflexivity.
Qed.

Lemma gateway_except_run h e s :
  exists v, gateway_except h e h s = (Ok v, s).
Proof. destruct e; simpl; eexists; reflexivity. Qed.

(** what the gateway returns once the token is there and the API answers:
    the classification of the answer, under the gateway's handlers *)
Lemma gateway_answer method endpoint accept_type data files h s tok s1 r :
  get_auth_token h s = (Ok tok, s1) ->
  supported_method h method = true ->
  api_answers h endpoint r ->
  fst (make_api_request method endpoint accept_type data files h s) =
  fst (try_except (classify r) (gateway_except h) h s1).
Proof.
  intros Htok Hm Hans.
  rewrite (make_api_request_token_ok _ _ _ _ _ _ _ _ _ Htok).
  destruct (dispatch_supported method (API_BASE_URL ++ endpoint)
              (gateway_headers h tok
                 (if Str.nonempty accept_type then accept_type else ACCEPT_HEADER))
              data files h s1 Hm) as (req & Hurl & _ & Hd).
  unfold try_except, bind. rewrite Hd. unfold send.
  rewrite (Hans req Hurl).
  pose proof (classify_any_store r h
    {| _token_cache := _token_cache s1; net_log := (net_log s1 ++ [req])%list |} s1) as Hc.
  destruct (classify r h _) as [[v | e] s2], (classify r h s1) as [[v' | e'] s3];
    simpl in Hc; try discriminate; inversion Hc; subst.
  - reflexivity.
  - destruct e'; reflexivity.
Qed.

(** C7: a response with status 202 makes the gateway return the
    accepted-pending dictionary with its fixed advisory message, whatever
    the body and the Content-Type of the response are: the test on 202 comes
    before [raise_for_status] and before the Content-Type is read. *)
Theorem accepted_pending_regardless method endpoint accept_type data files h s tok s1 r :
  get_auth_token h s = (Ok tok, s1) ->
  supported_method h method = true ->
  api_answers h endpoint r ->
  status_code r = 202 ->
  fst (make_api_request method endpoint accept_type data files h s) =
  Ok (JObj [("status", JStr "processing");
            ("message",
             JStr "Request accepted, processing in progress. Retry in 10 seconds.")]).
Proof.
  intros Htok Hm Hans H202.
  rewrite (gateway_answer _ _ _ _ _ _ _ _ _ _ Htok Hm Hans).
  unfold try_except, classify. rewrite H202. reflexivity.
Qed.

Lemma accepted_pending_regardless_witness :
  fst (make_api_request "GET" "/qkviews/42/diagnostics" "" None None
         (sample_host sample_env 1000
            (granting "T" 3600 (plain_response 202 "application/json" "{not json")))
         (store_with_token "T" 5000)) =
  Ok (JObj [("status", JStr "processing");
            ("message",
             JStr "Request accepted, processing in progress. Retry in 10 seconds.")]).
Proof.
  apply (accepted_pending_regardless "GET" "/qkviews/42/diagnostics" "" None None
           (sample_host sample_env 1000
              (granting "T" 3600 (plain_response 202 "application/json" "{not json")))
           (store_with_token "T" 5000) (JStr "T") (store_with_token "T" 5000)
           (plain_response 202 "application/json" "{not json")).
  - reflexivity.
  - reflexivity.
  - intros req Hurl. cbn [remote sample_host]. unfold granting. rewrite Hurl. reflexivity.
  - reflexivity.
Defined.

(** C6: a response whose status lies outside 200..299 makes the gateway
    return (not raise) the error dictionary with "API request failed:
    <status>" and the raw response text as details, and the formatter
    renders that dictionary as the two lines "Error: API request failed:
    <status>" and "Details: <body>". *)
Theorem http_error_round_trip method endpoint accept_type data files h s tok s1 r :
  get_auth_token h s = (Ok tok, s1) ->
  supported_method h method = true ->
  api_answers h endpoint r ->
  status_code r < 200 \/ 299 < status_code r ->
  fst (make_api_request method endpoint accept_type data files h s) =
    Ok (JObj [("error", JStr ("API request failed: " ++ Str.of_int (status_code r)));
              ("details", JStr (text r))]) /\
  format_response h
    (JObj [("error", JStr ("API request failed: " ++ Str.of_int (status_code r)));
           ("details", JStr (text r))]) =
    "Error: API request failed: " ++ Str.of_int (status_code r) ++ newline ++
    "Details: " ++ text r.
Proof.
  intros Htok Hm Hans Hst. split; [| reflexivity].
  rewrite (gateway_answer _ _ _ _ _ _ _ _ _ _ Htok Hm Hans).
  unfold try_except, classify, raise_for_status, is_success.
  assert (E202 : (status_code r =? 202) = false) by (apply Z.eqb_neq; lia).
  assert (Esucc : (200 <=? status_code r) && (status_code r <=? 299) = false).
  { apply andb_false_iff. rewrite Z.leb_gt, Z.leb_gt. lia. }
  rewrite E202, Esucc. reflexivity.
Qed.

(** a 404 with body "not found" *)
Lemma http_error_round_trip_witness :
  fst (make_api_request "GET" "/qkviews/42" "" None None
         (sample_host sample_env 1000
            (granting "T" 3600 (plain_response 404 "text/plain" "not found")))
         (store_with_token "T" 5000)) =
    Ok (JObj [("error", JStr "API request failed: 404");
              ("details", JStr "not found")]) /\
  format_response
    (sample_host sample_env 1000
       (granting "T" 3600 (plain_response 404 "text/plain" "not found")))
    (JObj [("error", JStr "API request failed: 404");
           ("details", JStr "not found")]) =
    "Error: API request failed: 404" ++ newline ++ "Details: not found".
Proof.
  apply (http_error_round_trip "GET" "/qkviews/42" "" None None
           (sample_host sample_env 1000
              (granting "T" 3600 (plain_response 404 "text/plain" "not found")))
           (store_with_token "T" 5000) (JStr "T") (store_with_token "T" 5000)
           (plain_response 404 "text/plain" "not found")).
  - reflexivity.
  - reflexivity.
  - intros req Hurl. cbn [remote sample_host]. unfold granting. rewrite Hurl. reflexivity.
  - right. reflexivity.
Defined.

(** C4 (amended): a 2xx response other than 202 whose Content-Type contains
    "application/xml" or "text/xml", and neither "application/json" nor the
    vendor JSON media type, makes the gateway return the raw response text
    under the key [xml_content]. *)
Theorem xml_media_types_yield_xml_text method endpoint accept_type data files
    h s tok s1 r :
  get_auth_token h s = (Ok tok, s1) ->
  supported_method h method = true ->
  api_answers h endpoint r ->
  200 <= status_code r <= 299 ->
  status_code r <> 202 ->
  Str.contains "application/json" (content_type_of r) = false ->
  Str.contains "application/vnd.f5.ihealth.api+json" (content_type_of r) = false ->
  Str.contains "application/xml" (content_type_of r) = true \/
  Str.contains "text/xml" (content_type_of r) = true ->
  fst (make_api_request method endpoint accept_type data files h s) =
  Ok (JObj [("xml_content", JStr (text r))]).
Proof.
  intros Htok Hm Hans Hst H202 Hj Hv Hx.
  rewrite (gateway_answer _ _ _ _ _ _ _ _ _ _ Htok Hm Hans).
  unfold try_except, classify, raise_for_status, is_success.
  fold (content_type_of r).
  apply Z.eqb_neq in H202. rewrite H202.
  assert (Es : (200 <=? status_code r) && (status_code r <=? 299) = true).
  { apply andb_true_iff. rewrite !Z.leb_le. lia. }
  rewrite Es. run_monad. rewrite Hj, Hv. simpl.
  assert (Ex : Str.contains "application/xml" (content_type_of r) ||
               Str.contains "text/xml" (content_type_of r) = true).
  { apply orb_true_iff. exact Hx. }
  rewrite Ex. reflexivity.
Qed.

Lemma xml_media_types_yield_xml_text_witness :
  fst (make_api_request "GET" "/qkviews/42/diagnostics" "" None None
         (sample_host sample_env 1000
            (granting "T" 3600 (plain_response 200 "application/xml; charset=utf-8" "<d/>")))
         (store_with_token "T" 5000)) =
  Ok (JObj [("xml_content", JStr "<d/>")]).
Proof.
  apply (xml_media_types_yield_xml_text "GET" "/qkviews/42/diagnostics" "" None None
           (sample_host sample_env 1000
              (granting "T" 3600
                 (plain_response 200 "application/xml; charset=utf-8" "<d/>")))
           (store_with_token "T" 5000) (JStr "T") (store_with_token "T" 5000)
           (plain_response 200 "application/xml; charset=utf-8" "<d/>")).
  - reflexivity.
  - reflexivity.
  - intros req Hurl. cbn [remote sample_host]. unfold granting. rewrite Hurl. reflexivity.
  - cbn. split; discriminate.
  - discriminate.
  - reflexivity.
  - reflexivity.
  - left. reflexivity.
Defined.

(** C4 as stated fails: the vendor media type
    application/vnd.f5.ihealth.api+xml contains "xml", but neither
    "application/xml" nor "text/xml"; a 200 response of that type, as the
    diagnostics tool asks for with output format xml, comes back under the
    key [content], not [xml_content].  The same holds for any other media
    type that only ends in "+xml", such as image/svg+xml. *)
Lemma vendor_xml_is_not_xml_text :
  Str.contains "xml" "application/vnd.f5.ihealth.api+xml" = true /\
  fst (make_api_request "GET" "/qkviews/42/diagnostics"
         "application/vnd.f5.ihealth.api+xml" None None
         (sample_host sample_env 1000
            (granting "T" 3600
               (plain_response 200 "application/vnd.f5.ihealth.api+xml" "<d/>")))
         (store_with_token "T" 5000)) =
    Ok (JObj [("content", JStr "<d/>")]) /\
  fst (make_api_request "GET" "/qkviews/42/diagnostics"
         "application/vnd.f5.ihealth.api+xml" None None
         (sample_host sample_env 1000
            (granting "T" 3600
               (plain_response 200 "application/vnd.f5.ihealth.api+xml" "<d/>")))
         (store_with_token "T" 5000)) <>
    Ok (JObj [("xml_content", JStr "<d/>")]) /\
  Str.contains "xml" "image/svg+xml" = true /\
  fst (make_api_request "GET" "/qkviews/42/files/abc" "" None None
         (sample_host sample_env 1000
            (granting "T" 3600 (plain_response 200 "image/svg+xml" "<svg/>")))
         (store_with_token "T" 5000)) =
    Ok (JObj [("content", JStr "<svg/>")]).
Proof.
  split; [reflexivity | split; [reflexivity | split; [| split; reflexivity]]].
  vm_compute. discriminate.
Qed.

(** C9 (amended): a 2xx response other than 202 whose Content-Type contains
    "application/octet-stream" and none of the JSON and XML media types the
    gateway tests first makes the gateway return the number of bytes of the
    body and the fixed confirmation message, and nothing else of the body. *)
Theorem octet_stream_summary method endpoint accept_type data files h s tok s1 r :
  get_auth_token h s = (Ok tok, s1) ->
  supported_method h method = true ->
  api_answers h endpoint r ->
  200 <= status_code r <= 299 ->
  status_code r <> 202 ->
  Str.contains "application/json" (content_type_of r) = false ->
  Str.contains "application/vnd.f5.ihealth.api+json" (content_type_of r) = false ->
  Str.contains "application/xml" (content_type_of r) = false ->
  Str.contains "text/xml" (content_type_of r) = false ->
  Str.contains "application/octet-stream" (content_type_of r) = true ->
  fst (make_api_request method endpoint accept_type data files h s) =
  Ok (JObj [("binary_size", JNum (Z.of_nat (String.length (content r))));
            ("message", JStr "Binary content retrieved successfully")]).
Proof.
  intros Htok Hm Hans Hst H202 Hj Hv Hx Ht Ho.
  rewrite (gateway_answer _ _ _ _ _ _ _ _ _ _ Htok Hm Hans).
  unfold try_except, classify, raise_for_status, is_success.
  fold (content_type_of r).
  apply Z.eqb_neq in H202. rewrite H202.
  assert (Es : (200 <=? status_code r) && (status_code r <=? 299) = true).
  { apply andb_true_iff. rewrite !Z.leb_le. lia. }
  rewrite Es. run_monad. rewrite Hj, Hv, Hx, Ht, Ho. reflexivity.
Qed.

(** a body of 1024 bytes is reported as size 1024 *)
Lemma octet_stream_summary_witness :
  fst (make_api_request "GET" "/qkviews/42/files/qkview" "application/octet-stream"
         None None
         (sample_host sample_env 1000
            (granting "T" 3600
               (plain_response 200 "application/octet-stream" (replicate 1024 "x"))))
         (store_with_token "T" 5000)) =
  Ok (JObj [("binary_size", JNum 1024);
            ("message", JStr "Binary content retrieved successfully")]).
Proof.
  apply (octet_stream_summary "GET" "/qkviews/42/files/qkview" "application/octet-stream"
           None None
           (sample_host sample_env 1000
              (granting "T" 3600
                 (plain_response 200 "application/octet-stream" (replicate 1024 "x"))))
           (store_with_token "T" 5000) (JStr "T") (store_with_token "T" 5000)
           (plain_response 200 "application/octet-stream" (replicate 1024 "x"))).
  - reflexivity.
  - reflexivity.
  - intros req Hurl. cbn [remote sample_host]. unfold granting. rewrite Hurl. reflexivity.
  - cbn. split; discriminate.
  - discriminate.
  - reflexivity.
  - reflexivity.
  - reflexivity.
  - reflexivity.
  - reflexivity.
Defined.

(** C9 as stated fails: the JSON and XML tests come first, so a 200 response
    whose Content-Type contains "application/octet-stream" and also
    "text/xml" is returned as text under [xml_content], body included. *)
Lemma octet_stream_after_xml_test :
  Str.contains "application/octet-stream" "application/octet-stream; type=text/xml" = true /\
  fst (make_api_request "GET" "/qkviews/42/files/qkview" "application/octet-stream"
         None None
         (sample_host sample_env 1000
            (granting "T" 3600
               (plain_response 200 "application/octet-stream; type=text/xml" "<d/>")))
         (store_with_token "T" 5000)) =
    Ok (JObj [("xml_content", JStr "<d/>")]).
Proof. split; reflexivity. Qed.

(** C3 (amended): for a method whose upper-cased form is none of GET, POST,
    PUT and DELETE the gateway first obtains a token, which is a token
    exchange over the network when the cache is not usable; a failure there
    is raised to the caller.  With the token in hand it sends no API request
    and returns (it does not raise) the error dictionary whose message is
    "API request failed: Unsupported HTTP method: <method>". *)
Theorem unsupported_method_result method endpoint accept_type data files h s :
  supported_method h method = false ->
  make_api_request method endpoint accept_type data files h s =
  match get_auth_token h s with
  | (Ok _, s1) =>
      (Ok (JObj [("error",
                  JStr ("API request failed: Unsupported HTTP method: " ++ method))]),
       s1)
  | (Raise e, s1) => (Raise e, s1)
  end.
Proof.
  intros Hm.
  destruct (get_auth_token h s) as [[tok | e] s1] eqn:Htok.
  - rewrite (make_api_request_token_ok _ _ _ _ _ _ _ _ _ Htok).
    unfold try_except, bind. rewrite (dispatch_unsupported _ _ _ _ _ _ _ Hm).
    reflexivity.
  - now apply make_api_request_token_raise.
Qed.

Lemma unsupported_method_result_witness :
  make_api_request "PATCH" "/qkviews" "" None None
    (sample_host sample_env 1000 (granting "T" 3600 (plain_response 200 "text/plain" "")))
    (store_with_token "T" 5000) =
  (Ok (JObj [("error", JStr "API request failed: Unsupported HTTP method: PATCH")]),
   store_with_token "T" 5000).
Proof.
  apply (unsupported_method_result "PATCH" "/qkviews" "" None None
           (sample_host sample_env 1000
              (granting "T" 3600 (plain_response 200 "text/plain" "")))
           (store_with_token "T" 5000)).
  reflexivity.
Defined.

(** C3 as stated fails: with an empty cache and credentials configured, a
    call with the method PATCH performs the token exchange, a network call,
    before the method is looked at, and then returns an error dictionary
    instead of raising. *)
Lemma unsupported_method_after_token_exchange :
  supported_method
    (sample_host sample_env 1000 (granting "T" 3600 (plain_response 200 "text/plain" "")))
    "PATCH" = false /\
  net_log (snd (make_api_request "PATCH" "/qkviews" "" None None
    (sample_host sample_env 1000 (granting "T" 3600 (plain_response 200 "text/plain" "")))
    initial_store)) =
  [token_request
     (sample_host sample_env 1000 (granting "T" 3600 (plain_response 200 "text/plain" "")))
     "id" "secret"] /\
  fst (make_api_request "PATCH" "/qkviews" "" None None
    (sample_host sample_env 1000 (granting "T" 3600 (plain_response 200 "text/plain" "")))
    initial_store) =
  Ok (JObj [("error", JStr "API request failed: Unsupported HTTP method: PATCH")]).
Proof. repeat split. Qed.

(** ** Tools that go through the gateway *)

Lemma call_api_token_raise method endpoint accept_type data files h s e s1 :
  get_auth_token h s = (Raise e, s1) ->
  call_api method endpoint accept_type data files h s = (Raise e, s1).
Proof.
  intros E. unfold call_api. unfold bind at 1, ask.
  apply bind_raise. now apply make_api_request_token_raise.
Qed.

Lemma call_api_store method endpoint accept_type data files h s :
  snd (call_api method endpoint accept_type data files h s) =
  snd (make_api_request method endpoint accept_type data files h s).
Proof.
  unfold call_api. unfold bind at 1 2, ask.
  destruct (make_api_request method endpoint accept_type data files h s) as [[v | e] s1];
    reflexivity.
Qed.

(** the one request of a GET through the gateway *)
Lemma gateway_get_log endpoint accept_type h s tok s1 :
  get_auth_token h s = (Ok tok, s1) ->
  net_log (snd (make_api_request "GET" endpoint accept_type None None h s)) =
  (net_log s1 ++
   [api_request "GET" (API_BASE_URL ++ endpoint)
      (gateway_headers h tok
         (if Str.nonempty accept_type then accept_type else ACCEPT_HEADER))
      NoBody])%list.
Proof.
  intros Htok. rewrite (make_api_request_token_ok _ _ _ _ _ _ _ _ _ Htok).
  unfold try_except, bind, dispatch.
  change (String.eqb (upper h "GET") "GET") with true. cbv iota.
  unfold send.
  set (req := api_request "GET" _ _ _).
  destruct (remote h req) as [r | d].
  - pose proof (classify_store r h
      {| _token_cache := _token_cache s1; net_log := (net_log s1 ++ [req])%list |}) as Hc.
    destruct (classify r h _) as [[v | e] s2]; simpl in Hc; subst s2.
    + reflexivity.
    + destruct (gateway_except_run h e
        {| _token_cache := _token_cache s1; net_log := (net_log s1 ++ [req])%list |})
        as [v Hv].
      rewrite Hv. reflexivity.
  - reflexivity.
Qed.

Lemma append_assoc (a b c : string) : (a ++ b) ++ c = a ++ b ++ c.
Proof. induction a as [| x a IH]; simpl; [reflexivity | now rewrite IH]. Qed.

Lemma diagnostics_endpoint qkview_id diagnostic_set :
  (if existsb (String.eqb diagnostic_set) ["hit"; "miss"]
   then ("/qkviews/" ++ qkview_id ++ "/diagnostics") ++ "?set=" ++ diagnostic_set
   else "/qkviews/" ++ qkview_id ++ "/diagnostics") =
  "/qkviews/" ++ qkview_id ++ "/diagnostics" ++ diagnostics_query diagnostic_set.
Proof.
  unfold diagnostics_query. cbn [existsb].
  destruct (String.eqb_spec diagnostic_set "hit") as [-> | _].
  - cbn [orb]. now rewrite !append_assoc.
  - destruct (String.eqb_spec diagnostic_set "miss") as [-> | _]; cbn [orb].
    + now rewrite !append_assoc.
    + change (String "/" "qkviews/" ++ qkview_id ++ "/diagnostics" ++ "")
        with ("/qkviews/" ++ (qkview_id ++ ("/diagnostics" ++ ""))).
      reflexivity.
Qed.

Lemma diagnostics_media_type output_format :
  dict_get_default (Str.lower output_format) format_map
    "application/vnd.f5.ihealth.api+json" = diagnostics_accept output_format.
Proof.
  unfold diagnostics_accept, dict_get_default, format_map. cbn [dict_get].
  repeat match goal with
         | |- context [String.eqb ?a ?b] => destruct (String.eqb a b)
         end; reflexivity.
Qed.

Lemma diagnostics_accept_nonempty output_format :
  Str.nonempty (diagnostics_accept output_format) = true.
Proof.
  unfold diagnostics_accept.
  repeat match goal with
         | |- context [String.eqb ?a ?b] => destruct (String.eqb a b)
         end; reflexivity.
Qed.

(** C8: [get_qkview_diagnostics] with a non-empty [qkview_id], once the
    token is there, sends one GET whose path is
    /qkviews/<qkview_id>/diagnostics followed by "?set=hit" when
    [diagnostic_set] is "hit", by "?set=miss" when it is "miss", and by
    nothing for any other value; its Accept header is the media type that
    the lower-cased [output_format] selects among json, xml, pdf and csv, and
    the vendor JSON media type for every other format. *)
Theorem get_qkview_diagnostics_request qkview_id diagnostic_set output_format
    h s tok s1 :
  qkview_id <> "" ->
  get_auth_token h s = (Ok tok, s1) ->
  net_log (snd (get_qkview_diagnostics qkview_id diagnostic_set output_format h s)) =
  (net_log s1 ++
   [api_request "GET"
      (API_BASE_URL ++ "/qkviews/" ++ qkview_id ++ "/diagnostics" ++
       diagnostics_query diagnostic_set)
      [("Authorization", ("Bearer " ++ py_str h tok)%string);
       ("Accept", diagnostics_accept output_format);
       ("User-Agent", USER_AGENT)]
      NoBody])%list.
Proof.
  intros Hne Htok. apply nonempty_true in Hne.
  unfold get_qkview_diagnostics. rewrite Hne. cbv zeta. cbn [negb].
  rewrite call_api_store, (gateway_get_log _ _ _ _ _ _ Htok).
  rewrite diagnostics_endpoint, diagnostics_media_type, diagnostics_accept_nonempty.
  reflexivity.
Qed.

(** "hit" with format PDF, and an unknown set with an unknown format *)
Lemma get_qkview_diagnostics_request_witness :
  net_log (snd (get_qkview_diagnostics "42" "hit" "PDF"
    (sample_host sample_env 1000 (granting "T" 3600 (plain_response 200 "application/pdf" "")))
    (store_with_token "T" 5000))) =
  [api_request "GET"
     "https://ihealth2-api.f5.com/qkview-analyzer/api/qkviews/42/diagnostics?set=hit"
     [("Authorization", "Bearer T"); ("Accept", "application/pdf");
      ("User-Agent", "F5iHealthMCPServer/1.0")]
     NoBody] /\
  net_log (snd (get_qkview_diagnostics "42" "all" "yaml"
    (sample_host sample_env 1000 (granting "T" 3600 (plain_response 200 "application/pdf" "")))
    (store_with_token "T" 5000))) =
  [api_request "GET"
     "https://ihealth2-api.f5.com/qkview-analyzer/api/qkviews/42/diagnostics"
     [("Authorization", "Bearer T"); ("Accept", "application/vnd.f5.ihealth.api+json");
      ("User-Agent", "F5iHealthMCPServer/1.0")]
     NoBody].
Proof.
  split.
  - apply (get_qkview_diagnostics_request "42" "hit" "PDF"
             (sample_host sample_env 1000
                (granting "T" 3600 (plain_response 200 "application/pdf" "")))
             (store_with_token "T" 5000) (JStr "T") (store_with_token "T" 5000)).
    + discriminate.
    + reflexivity.
  - apply (get_qkview_diagnostics_request "42" "all" "yaml"
             (sample_host sample_env 1000
                (granting "T" 3600 (plain_response 200 "application/pdf" "")))
             (store_with_token "T" 5000) (JStr "T") (store_with_token "T" 5000)).
    + discriminate.
    + reflexivity.
Defined.

(** ** Exceptions at the tool boundary *)

Lemma get_auth_token_raises h s e :
  fst (get_auth_token h s) = Raise e -> exists msg, e = ValueError msg.
Proof.
  destruct (truthy (token (_token_cache s)) &&
            (time_time h <? expires_at (_token_cache s) - 60)) eqn:Eu.
  - apply cache_usable_test in Eu. rewrite (get_auth_token_hit h s Eu). discriminate.
  - assert (Hst : ~ cache_usable h s).
    { rewrite cache_usable_test, Eu. discriminate. }
    rewrite (get_auth_token_miss h s Hst). unfold bind.
    destruct (get_credentials h s) as [[creds | e'] s1] eqn:Ec.
    + intros He. destruct (exchange_raises _ _ _ _ _ _ He) as [msg ->]. eauto.
    + unfold get_credentials in Ec. run_monad.
      destruct (negb _ || negb _) in Ec; inversion Ec; subst.
      intros He. inversion He. eauto.
Qed.






(** C1, the failing path: with no credentials in the environment and the
    cache empty, [list_qkviews] does not return an error text; the
    [ValueError] of [get_credentials] leaves the tool function, because
    [make_api_request] calls [get_auth_token] before its [try] block. *)
Theorem list_qkviews_raises_without_credentials :
  list_qkviews bare_host initial_store =
  (Raise (ValueError
     "F5_IHEALTH_CLIENT_ID and F5_IHEALTH_CLIENT_SECRET environment variables are required"),
   initial_store).
Proof. reflexivity. Qed.

(** * Further properties *)

(** ** Token manager: the exchange *)

Lemma get_credentials_store h s : snd (get_credentials h s) = s.
Proof.
  unfold get_credentials. run_monad.
  destruct (negb _ || negb _); reflexivity.
Qed.









(** X2: a token obtained by an exchange is served from the cache by a later
    call, without any request, as long as the token is non-empty and the
    later clock is strictly before the stored expiry minus 60 seconds; the
    later call may even run with another environment. *)
Theorem fresh_token_is_reused h h2 s tok s1 :
  ~ cache_usable h s ->
  get_auth_token h s = (Ok tok, s1) ->
  truthy tok = true ->
  time_time h2 < expires_at (_token_cache s1) - 60 ->
  get_auth_token h2 s1 = (Ok tok, s1).
Proof.
  intros Hst Hok Htr Hlt.
  assert (Htok : token (_token_cache s1) = tok).
  { rewrite (get_auth_token_miss h s Hst) in Hok. unfold bind in Hok.
    destruct (get_credentials h s) as [[creds | e] s0]; [| discriminate].
    assert (Hf : fst (exchange (time_time h) (fst creds) (snd creds) h s0) = Ok tok)
      by now rewrite Hok.
    destruct (exchange_ok _ _ _ _ _ _ Hf) as (r & f & _ & _ & _ & _ & Hc).
    now rewrite Hok in Hc. }
  rewrite <- Htok. apply get_auth_token_hit. split; [now rewrite Htok | exact Hlt].
Qed.

Lemma fresh_token_is_reused_witness :
  get_auth_token
    (sample_host [] 4539 (fun _ => TransportFailure "connection refused"))
    {| _token_cache := {| token := JStr "T"; expires_at := 4600 |};
       net_log := [token_request
                     (sample_host sample_env 1000 (granting "T" 3600
                        (plain_response 200 "text/plain" "")))
                     "id" "secret"] |} =
  (Ok (JStr "T"),
   {| _token_cache := {| token := JStr "T"; expires_at := 4600 |};
      net_log := [token_request
                    (sample_host sample_env 1000 (granting "T" 3600
                       (plain_response 200 "text/plain" "")))
                    "id" "secret"] |}).
Proof.
  apply (fresh_token_is_reused
           (sample_host sample_env 1000
              (granting "T" 3600 (plain_response 200 "text/plain" "")))
           (sample_host [] 4539 (fun _ => TransportFailure "connection refused"))
           initial_store).
  - intros [Ht _]. discriminate.
  - reflexivity.
  - reflexivity.
  - reflexivity.
Defined.





(** ** HTTP gateway: requests *)

Lemma gateway_after_send req h s1 :
  snd (try_except (response <- send req ;; classify response) (gateway_except h) h s1) =
  logged s1 req.
Proof.
  unfold try_except, bind, send, logged.
  destruct (remote h req) as [r | d]; [| reflexivity].
  pose proof (classify_store r h
    {| _token_cache := _token_cache s1; net_log := (net_log s1 ++ [req])%list |}) as Hc.
  destruct (classify r h _) as [[v | e] s2]; simpl in Hc; subst s2; [reflexivity |].
  destruct (gateway_except_run h e
    {| _token_cache := _token_cache s1; net_log := (net_log s1 ++ [req])%list |})
    as [v Hv].
  rewrite Hv. reflexivity.
Qed.

Lemma supported_method_cases h method :
  supported_method h method = true ->
  upper h method = "GET" \/ upper h method = "POST" \/
  upper h method = "PUT" \/ upper h method = "DELETE".
Proof.
  unfold supported_method. rewrite !orb_true_iff, !String.eqb_eq. tauto.
Qed.

(** the dispatch sends the request that the upper-cased method determines *)
Lemma dispatch_request method url hdrs data files h s :
  supported_method h method = true ->
  dispatch method url hdrs data files h s =
  send (api_request (upper h method) url hdrs
          (gateway_body (upper h method) data files)) h s.
Proof.
  intros Hm. unfold dispatch, gateway_body.
  destruct (supported_method_cases h method Hm) as [E | [E | [E | E]]]; rewrite E.
  - reflexivity.
  - simpl. destruct (files_truthy files) eqn:Ef; [| reflexivity].
    reflexivity.
  - reflexivity.
  - reflexivity.
Qed.

(** X5: for a supported method, once the token is there, the gateway sends
    exactly one request: method upper-cased, URL the base URL followed by
    the endpoint, the three headers Authorization (Bearer token), Accept
    (the given type, or the default application/vnd.f5.ihealth.api when it
    is empty) and User-Agent.  GET and DELETE carry no body even when form
    fields are passed, PUT never carries files, and POST carries the files
    only when the dictionary is not empty. *)
Theorem gateway_request_shape method endpoint accept_type data files h s tok s1 :
  supported_method h method = true ->
  get_auth_token h s = (Ok tok, s1) ->
  snd (make_api_request method endpoint accept_type data files h s) =
  logged s1
    {| req_method := upper h method;
       req_url := API_BASE_URL ++ endpoint;
       req_headers :=
         [("Authorization", "Bearer " ++ py_str h tok);
          ("Accept", if String.eqb accept_type "" then ACCEPT_HEADER else accept_type);
          ("User-Agent", USER_AGENT)];
       req_body := gateway_body (upper h method) data files;
       req_timeout := 120;
       req_follow_redirects := true |}.
Proof.
  intros Hm Htok.
  rewrite (make_api_request_token_ok _ _ _ _ _ _ _ _ _ Htok).
  assert (E : try_except
                (response <-
                   dispatch method (API_BASE_URL ++ endpoint)
                     (gateway_headers h tok
                        (if Str.nonempty accept_type then accept_type else ACCEPT_HEADER))
                     data files ;;
                 classify response) (gateway_except h) h s1 =
              try_except
                (response <-
                   send (api_request (upper h method) (API_BASE_URL ++ endpoint)
                           (gateway_headers h tok
                              (if Str.nonempty accept_type then accept_type
                               else ACCEPT_HEADER))
                           (gateway_body (upper h method) data files)) ;;
                 classify response) (gateway_except h) h s1).
  { unfold try_except, bind. now rewrite (dispatch_request _ _ _ _ _ _ _ Hm). }
  rewrite E, gateway_after_send.
  destruct accept_type; reflexivity.
Qed.

Lemma gateway_request_shape_witness :
  snd (make_api_request "put" "/qkviews/42" "" (Some [("description", "lab")])
         (Some [("qkview", {| part_filename := "a"; part_source := "/a";
                              part_content_type := "application/octet-stream" |})])
         (sample_host sample_env 1000 (granting "T" 3600 (plain_response 200 "text/plain" "")))
         (store_with_token "T" 5000)) =
  logged (store_with_token "T" 5000)
    {| req_method := "PUT";
       req_url := "https://ihealth2-api.f5.com/qkview-analyzer/api/qkviews/42";
       req_headers :=
         [("Authorization", "Bearer T");
          ("Accept", "application/vnd.f5.ihealth.api");
          ("User-Agent", "F5iHealthMCPServer/1.0")];
       req_body := FormData (Some [("description", "lab")]) None;
       req_timeout := 120;
       req_follow_redirects := true |}.
Proof.
  apply (gateway_request_shape "put" "/qkviews/42" ""
           (Some [("description", "lab")])
           (Some [("qkview", {| part_filename := "a"; part_source := "/a";
                                part_content_type := "application/octet-stream" |})])
           (sample_host sample_env 1000
              (granting "T" 3600 (plain_response 200 "text/plain" "")))
           (store_with_token "T" 5000) (JStr "T") (store_with_token "T" 5000)).
  - reflexivity.
  - reflexivity.
Defined.

(** X6: the gateway reads the method through [upper()] only: two
    spellings whose upper-cased forms agree and are one of GET, POST, PUT
    and DELETE give the same call, in result, store and request. *)
Theorem method_case_is_irrelevant method method' endpoint accept_type data files h s :
  supported_method h method = true ->
  upper h method' = upper h method ->
  make_api_request method' endpoint accept_type data files h s =
  make_api_request method endpoint accept_type data files h s.
Proof.
  intros Hm Heq.
  assert (Hm' : supported_method h method' = true).
  { unfold supported_method in *. now rewrite Heq. }
  destruct (get_auth_token h s) as [[tok | e] s1] eqn:Htok.
  - rewrite !(make_api_request_token_ok _ _ _ _ _ _ _ _ _ Htok).
    unfold try_except, bind.
    rewrite (dispatch_request method _ _ _ _ _ _ Hm).
    rewrite (dispatch_request method' _ _ _ _ _ _ Hm').
    rewrite Heq. reflexivity.
  - now rewrite !(make_api_request_token_raise _ _ _ _ _ _ _ _ _ Htok).
Qed.

Lemma method_case_is_irrelevant_witness :
  make_api_request "dElEtE" "/qkviews/42" "" None None
    (sample_host sample_env 1000 (granting "T" 3600 (plain_response 200 "text/plain" "ok")))
    initial_store =
  make_api_request "DELETE" "/qkviews/42" "" None None
    (sample_host sample_env 1000 (granting "T" 3600 (plain_response 200 "text/plain" "ok")))
    initial_store.
Proof.
  apply (method_case_is_irrelevant "DELETE" "dElEtE" "/qkviews/42" "" None None
           (sample_host sample_env 1000
              (granting "T" 3600 (plain_response 200 "text/plain" "ok")))
           initial_store).
  - reflexivity.
  - reflexivity.
Defined.

(** what a gateway call does to the store, beyond what the token manager
    did: at most one more request, and nothing to the cache *)
Lemma make_api_request_effect method endpoint accept_type data files h s :
  exists l,
    (length l <= 1)%nat /\
    snd (make_api_request method endpoint accept_type data files h s) =
    {| _token_cache := _token_cache (snd (get_auth_token h s));
       net_log := (net_log (snd (get_auth_token h s)) ++ l)%list |}.
Proof.
  destruct (get_auth_token h s) as [[tok | e] s1] eqn:Htok.
  - rewrite (make_api_request_token_ok _ _ _ _ _ _ _ _ _ Htok).
    destruct (supported_method h method) eqn:Hm.
    + destruct (dispatch_supported method (API_BASE_URL ++ endpoint)
                  (gateway_headers h tok
                     (if Str.nonempty accept_type then accept_type else ACCEPT_HEADER))
                  data files h s1 Hm) as (req & _ & _ & Hd).
      exists [req]. split; [simpl; lia |].
      pose proof (gateway_after_send req h s1) as Hg.
      unfold try_except, bind in *. rewrite Hd, Hg. reflexivity.
    + exists []. split; [simpl; lia |].
      unfold try_except, bind. rewrite (dispatch_unsupported _ _ _ _ _ _ _ Hm).
      simpl. rewrite app_nil_r. destruct s1; reflexivity.
  - rewrite (make_api_request_token_raise _ _ _ _ _ _ _ _ _ Htok).
    exists []. split; [simpl; lia |]. simpl. rewrite app_nil_r. destruct s1; reflexivity.
Qed.

(** X7: the gateway never writes the token cache itself: after any call,
    the cache is the one [get_auth_token] left, whatever the method, the
    answer of the API or the failure. *)
Theorem gateway_leaves_cache_to_token_manager method endpoint accept_type data files h s :
  _token_cache (snd (make_api_request method endpoint accept_type data files h s)) =
  _token_cache (snd (get_auth_token h s)).
Proof.
  destruct (make_api_request_effect method endpoint accept_type data files h s)
    as (l & _ & E).
  now rewrite E.
Qed.

(** ** Requests per call *)

Lemma get_auth_token_growth h s :
  exists l, (length l <= 1)%nat /\
            net_log (snd (get_auth_token h s)) = (net_log s ++ l)%list.
Proof.
  destruct (truthy (token (_token_cache s)) &&
            (time_time h <? expires_at (_token_cache s) - 60)) eqn:Eu.
  - apply cache_usable_test in Eu. rewrite (get_auth_token_hit h s Eu).
    exists []. split; [simpl; lia | simpl; now rewrite app_nil_r].
  - assert (Hst : ~ cache_usable h s).
    { rewrite cache_usable_test, Eu. discriminate. }
    rewrite (get_auth_token_miss h s Hst). unfold bind.
    pose proof (get_credentials_store h s) as Hc.
    destruct (get_credentials h s) as [[creds | e] s0]; simpl in Hc; subst s0.
    + exists [token_request h (fst creds) (snd creds)].
      split; [simpl; lia | apply exchange_log].
    + exists []. split; [simpl; lia | simpl; now rewrite app_nil_r].
Qed.

Lemma make_api_request_growth method endpoint accept_type data files h s :
  exists l, (length l <= 2)%nat /\
            net_log (snd (make_api_request method endpoint accept_type data files h s)) =
            (net_log s ++ l)%list.
Proof.
  destruct (make_api_request_effect method endpoint accept_type data files h s)
    as (l2 & Hl2 & E).
  destruct (get_auth_token_growth h s) as (l1 & Hl1 & E1).
  exists (l1 ++ l2)%list. split.
  - rewrite length_app. lia.
  - rewrite E. simpl. rewrite E1. now rewrite app_assoc.
Qed.

Lemma call_api_growth method endpoint accept_type data files h s :
  exists l, (length l <= 2)%nat /\
            net_log (snd (call_api method endpoint accept_type data files h s)) =
            (net_log s ++ l)%list.
Proof.
  rewrite call_api_store. apply make_api_request_growth.
Qed.

Lemma no_growth (s : store) :
  exists l, (length l <= 2)%nat /\ net_log s = (net_log s ++ l)%list.
Proof. exists []. split; [simpl; lia | now rewrite app_nil_r]. Qed.

Lemma upload_qkview_growth file_path description visible_in_gui f5_support_case
    share_with_case_owner h s :
  exists l, (length l <= 2)%nat /\
            net_log (snd (upload_qkview file_path description visible_in_gui
                            f5_support_case share_with_case_owner h s)) =
            (net_log s ++ l)%list.
Proof.
  unfold upload_qkview. unfold bind at 1, ask.
  destruct (negb (Str.nonempty file_path)); [apply no_growth |].
  destruct (negb (path_exists h file_path)); [apply no_growth |].
  unfold try_except, open_rb. unfold bind at 1 2, ask.
  destruct (open_error h file_path) as [d |]; [apply no_growth |].
  unfold ret at 1. unfold bind at 1.
  match goal with
  | |- context [make_api_request ?m ?e ?a ?d ?f h s] =>
      destruct (make_api_request_growth m e a d f h s) as (l & Hl & E);
      destruct (make_api_request m e a d f h s) as [[v | e0] s1]
  end; exists l; split; auto.
Qed.

Lemma validate_credentials_growth h s :
  exists l, (length l <= 2)%nat /\
            net_log (snd (validate_credentials h s)) = (net_log s ++ l)%list.
Proof.
  destruct (get_auth_token_growth h s) as (l & Hl & E).
  exists l. split; [lia |].
  unfold validate_credentials. unfold bind at 1, ask. unfold try_except, bind.
  destruct (get_auth_token h s) as [[tok | e] s1]; simpl in E.
  - destruct (truthy tok); exact E.
  - destruct e; exact E.
Qed.

(** X8: one tool call sends at most two HTTP requests (the token exchange
    and the API request), whatever the answers are: nothing is retried, and
    the requests already logged are kept. *)
Theorem invoke_sends_at_most_two_requests c h s :
  exists l, (length l <= 2)%nat /\
            net_log (snd (invoke c h s)) = (net_log s ++ l)%list.
Proof.
  destruct c; cbn [invoke];
    try apply call_api_growth;
    try apply upload_qkview_growth;
    try apply validate_credentials_growth;
    match goal with
    | |- context [net_log (snd (?f _ _ _))] => unfold f
    | |- context [net_log (snd (?f _ _ _ _))] => unfold f
    | |- context [net_log (snd (?f _ _ _ _ _))] => unfold f
    | |- context [net_log (snd (?f _ _ _ _ _ _ _))] => unfold f
    end;
    cbv zeta;
    repeat match goal with
           | |- context [if ?b then _ else _] => destruct b; [apply no_growth |]
           end;
    try apply call_api_growth.
Qed.

(** ** HTTP gateway: answers *)

Lemma gateway_failure method endpoint accept_type data files h s tok s1 d :
  get_auth_token h s = (Ok tok, s1) ->
  supported_method h method = true ->
  api_fails h endpoint d ->
  fst (make_api_request method endpoint accept_type data files h s) =
  Ok (JObj [("error", JStr ("API request failed: " ++ d))]).
Proof.
  intros Htok Hm Hfail.
  rewrite (make_api_request_token_ok _ _ _ _ _ _ _ _ _ Htok).
  destruct (dispatch_supported method (API_BASE_URL ++ endpoint)
              (gateway_headers h tok
                 (if Str.nonempty accept_type then accept_type else ACCEPT_HEADER))
              data files h s1 Hm) as (req & Hurl & _ & Hd).
  unfold try_except, bind. rewrite Hd. unfold send.
  rewrite (Hfail req Hurl). reflexivity.
Qed.

(** X9: when the API cannot be reached (connection failure, timeout), a
    gateway-backed tool does not raise: the gateway returns an error
    dictionary without details, and the text handed back is "Error: API
    request failed: <description>" followed by the line "Details: No
    additional details". *)
Theorem transport_failure_is_text method endpoint accept_type data files h s tok s1 d :
  get_auth_token h s = (Ok tok, s1) ->
  supported_method h method = true ->
  api_fails h endpoint d ->
  fst (call_api method endpoint accept_type data files h s) =
  Ok ("Error: API request failed: " ++ d ++ newline ++ "Details: No additional details").
Proof.
  intros Htok Hm Hfail.
  pose proof (gateway_failure method endpoint accept_type data files h s tok s1 d
                Htok Hm Hfail) as Hg.
  unfold call_api. unfold bind at 1 2, ask.
  destruct (make_api_request method endpoint accept_type data files h s) as [[v | e] s2];
    simpl in Hg; inversion Hg; subst.
  reflexivity.
Qed.

Lemma transport_failure_is_text_witness :
  fst (call_api "GET" "/qkviews" "" None None
         (sample_host sample_env 1000 (fun _ => TransportFailure "timed out"))
         (store_with_token "T" 5000)) =
  Ok ("Error: API request failed: timed out" ++ newline ++
      "Details: No additional details").
Proof.
  apply (transport_failure_is_text "GET" "/qkviews" "" None None
           (sample_host sample_env 1000 (fun _ => TransportFailure "timed out"))
           (store_with_token "T" 5000) (JStr "T") (store_with_token "T" 5000)
           "timed out").
  - reflexivity.
  - reflexivity.
  - intros req _. reflexivity.
Defined.

(** X10: for a 2xx response other than 202 whose Content-Type contains
    "application/json" or the vendor JSON media type, the gateway returns
    the decoded body as it is, object or not; when the body does not decode
    the gateway does not fall back to the text: it returns the error
    dictionary "API request failed: <decoder message>", without details. *)
Theorem json_answer_or_decode_error method endpoint accept_type data files
    h s tok s1 r :
  get_auth_token h s = (Ok tok, s1) ->
  supported_method h method = true ->
  api_answers h endpoint r ->
  200 <= status_code r <= 299 ->
  status_code r <> 202 ->
  Str.contains "application/json" (content_type_of r) = true \/
  Str.contains "application/vnd.f5.ihealth.api+json" (content_type_of r) = true ->
  fst (make_api_request method endpoint accept_type data files h s) =
  match json_body r with
  | inr v => Ok v
  | inl d => Ok (JObj [("error", JStr ("API request failed: " ++ d))])
  end.
Proof.
  intros Htok Hm Hans Hst H202 Hj.
  rewrite (gateway_answer _ _ _ _ _ _ _ _ _ _ Htok Hm Hans).
  unfold try_except, classify, raise_for_status, is_success, response_json.
  fold (content_type_of r).
  apply Z.eqb_neq in H202. rewrite H202.
  assert (Es : (200 <=? status_code r) && (status_code r <=? 299) = true).
  { apply andb_true_iff. rewrite !Z.leb_le. lia. }
  rewrite Es. run_monad.
  assert (Ej : Str.contains "application/json" (content_type_of r) ||
               Str.contains "application/vnd.f5.ihealth.api+json" (content_type_of r)
               = true).
  { apply orb_true_iff. exact Hj. }
  rewrite Ej. destruct (json_body r); reflexivity.
Qed.

Lemma json_answer_or_decode_error_witness :
  fst (make_api_request "GET" "/qkviews" "" None None
         (sample_host sample_env 1000
            (granting "T" 3600
               (plain_response 200 "application/json" "<html>maintenance</html>")))
         (store_with_token "T" 5000)) =
  Ok (JObj [("error",
             JStr "API request failed: Expecting value: line 1 column 1 (char 0)")]).
Proof.
  apply (json_answer_or_decode_error "GET" "/qkviews" "" None None
           (sample_host sample_env 1000
              (granting "T" 3600
                 (plain_response 200 "application/json" "<html>maintenance</html>")))
           (store_with_token "T" 5000) (JStr "T") (store_with_token "T" 5000)
           (plain_response 200 "application/json" "<html>maintenance</html>")).
  - reflexivity.
  - reflexivity.
  - intros req Hurl. cbn [remote sample_host]. unfold granting. rewrite Hurl. reflexivity.
  - cbn. split; discriminate.
  - discriminate.
  - left. reflexivity.
Defined.

(** X11: a 2xx response other than 202 that has no Content-Type header, or
    whose Content-Type contains none of the five media types the gateway
    looks for, is returned as its text under the key [content]. *)
Theorem other_content_is_opaque_text method endpoint accept_type data files
    h s tok s1 r :
  get_auth_token h s = (Ok tok, s1) ->
  supported_method h method = true ->
  api_answers h endpoint r ->
  200 <= status_code r <= 299 ->
  status_code r <> 202 ->
  content_type r = None \/
  (forall needle,
     In needle ["application/json"; "application/vnd.f5.ihealth.api+json";
                "application/xml"; "text/xml"; "application/octet-stream"] ->
     Str.contains needle (content_type_of r) = false) ->
  fst (make_api_request method endpoint accept_type data files h s) =
  Ok (JObj [("content", JStr (text r))]).
Proof.
  intros Htok Hm Hans Hst H202 Hct.
  assert (Hnone : forall needle,
            In needle ["application/json"; "application/vnd.f5.ihealth.api+json";
                       "application/xml"; "text/xml"; "application/octet-stream"] ->
            Str.contains needle (content_type_of r) = false).
  { destruct Hct as [Hmiss | Hall]; [| exact Hall].
    unfold content_type_of. rewrite Hmiss. intros needle Hin. simpl in Hin.
    repeat (destruct Hin as [<- | Hin]; [reflexivity |]). contradiction. }
  rewrite (gateway_answer _ _ _ _ _ _ _ _ _ _ Htok Hm Hans).
  unfold try_except, classify, raise_for_status, is_success.
  fold (content_type_of r).
  apply Z.eqb_neq in H202. rewrite H202.
  assert (Es : (200 <=? status_code r) && (status_code r <=? 299) = true).
  { apply andb_true_iff. rewrite !Z.leb_le. lia. }
  rewrite Es. run_monad.
  rewrite !Hnone by (simpl; tauto). reflexivity.
Qed.

Lemma other_content_is_opaque_text_witness :
  fst (make_api_request "DELETE" "/qkviews/42" "" None None
         (sample_host sample_env 1000
            (granting "T" 3600
               {| status_code := 200; content_type := None; content := "";
                  text := ""; json_body := inl "Expecting value" |}))
         (store_with_token "T" 5000)) =
  Ok (JObj [("content", JStr "")]).
Proof.
  apply (other_content_is_opaque_text "DELETE" "/qkviews/42" "" None None
           (sample_host sample_env 1000
              (granting "T" 3600
                 {| status_code := 200; content_type := None; content := "";
                    text := ""; json_body := inl "Expecting value" |}))
           (store_with_token "T" 5000) (JStr "T") (store_with_token "T" 5000)
           {| status_code := 200; content_type := None; content := "";
              text := ""; json_body := inl "Expecting value" |}).
  - reflexivity.
  - reflexivity.
  - intros req Hurl. cbn [remote sample_host]. unfold granting. rewrite Hurl. reflexivity.
  - cbn. split; discriminate.
  - discriminate.
  - left. reflexivity.
Defined.

(** ** Exceptions and the credentials probe *)





(** X14: with a usable cached token [validate_credentials] answers with the
    success text without reading the environment and without any request:
    it reports success even when the credentials are not configured. *)
Theorem validate_credentials_on_cache_hit h s :
  cache_usable h s ->
  validate_credentials h s = (Ok credentials_valid_text, s).
Proof.
  intros Hu. unfold validate_credentials. unfold bind at 1, ask.
  unfold try_except, bind. rewrite (get_auth_token_hit h s Hu).
  destruct Hu as [Ht _]. rewrite Ht. reflexivity.
Qed.

Lemma validate_credentials_on_cache_hit_witness :
  validate_credentials bare_host (store_with_token "T" 5000) =
  (Ok "Success: F5 iHealth API credentials are valid and authentication successful.",
   store_with_token "T" 5000).
Proof.
  apply (validate_credentials_on_cache_hit bare_host (store_with_token "T" 5000)).
  split; reflexivity.
Defined.

(** ** Tools: uploads and updates *)

Lemma gateway_sends method endpoint accept_type data files h s tok s1 :
  supported_method h method = true ->
  get_auth_token h s = (Ok tok, s1) ->
  snd (make_api_request method endpoint accept_type data files h s) =
  logged s1
    (api_request (upper h method) (API_BASE_URL ++ endpoint)
       (gateway_headers h tok
          (if Str.nonempty accept_type then accept_type else ACCEPT_HEADER))
       (gateway_body (upper h method) data files)).
Proof.
  intros Hm Htok.
  rewrite (make_api_request_token_ok _ _ _ _ _ _ _ _ _ Htok).
  rewrite <- (gateway_after_send _ h s1).
  unfold try_except, bind. now rewrite (dispatch_request _ _ _ _ _ _ _ Hm).
Qed.

Lemma set_if_upload description visible_in_gui f5_support_case share_with_case_owner :
  set_if "share_with_case_owner" share_with_case_owner
    (set_if "f5_support_case" f5_support_case
       (set_if "visible_in_gui" visible_in_gui
          (set_if "description" description []))) =
  present_fields [("description", description); ("visible_in_gui", visible_in_gui);
                  ("f5_support_case", f5_support_case);
                  ("share_with_case_owner", share_with_case_owner)].
Proof.
  destruct description, visible_in_gui, f5_support_case, share_with_case_owner;
    reflexivity.
Qed.

Lemma set_if_update description visible_in_gui f5_support_case non_f5_case :
  set_if "non_f5_case" non_f5_case
    (set_if "f5_support_case" f5_support_case
       (set_if "visible_in_gui" visible_in_gui
          (set_if "description" description []))) =
  present_fields [("description", description); ("visible_in_gui", visible_in_gui);
                  ("f5_support_case", f5_support_case);
                  ("non_f5_case", non_f5_case)].
Proof.
  destruct description, visible_in_gui, f5_support_case, non_f5_case; reflexivity.
Qed.

(** what [upload_qkview] does once the path is given, exists and opens *)
Lemma upload_qkview_opened file_path description visible_in_gui f5_support_case
    share_with_case_owner h s :
  file_path <> "" ->
  path_exists h file_path = true ->
  open_error h file_path = None ->
  upload_qkview file_path description visible_in_gui f5_support_case
    share_with_case_owner h s =
  match make_api_request "POST" "/qkviews" ""
          (Some (present_fields
                   [("description", description); ("visible_in_gui", visible_in_gui);
                    ("f5_support_case", f5_support_case);
                    ("share_with_case_owner", share_with_case_owner)]))
          (Some [("qkview", {| part_filename := Str.basename file_path;
                               part_source := file_path;
                               part_content_type := "application/octet-stream" |})])
          h s with
  | (Ok result, s1) => (Ok (format_response h result), s1)
  | (Raise e, s1) => (Ok ("Error uploading QKView: " ++ exn_str h e), s1)
  end.
Proof.
  intros Hne Hex Hop. apply nonempty_true in Hne.
  unfold upload_qkview. unfold bind at 1, ask. rewrite Hne, Hex. cbn [negb].
  unfold try_except, open_rb. unfold bind at 1 2, ask. rewrite Hop.
  unfold ret at 1. cbv zeta. rewrite set_if_upload. unfold bind.
  destruct (make_api_request _ _ _ _ _ h s) as [[v | e] s1]; reflexivity.
Qed.

(** X15: [upload_qkview] turns its own failures into text.  When the file
    exists but cannot be opened, the answer is "Error uploading QKView: "
    followed by the description of the error and nothing is sent; when the
    token manager raises, the answer is the same prefix followed by the
    message of its [ValueError]. *)
Theorem upload_qkview_failures_are_text file_path description visible_in_gui
    f5_support_case share_with_case_owner h s :
  file_path <> "" ->
  path_exists h file_path = true ->
  (forall d, open_error h file_path = Some d ->
     upload_qkview file_path description visible_in_gui f5_support_case
       share_with_case_owner h s = (Ok ("Error uploading QKView: " ++ d), s)) /\
  (forall msg s1,
     open_error h file_path = None ->
     get_auth_token h s = (Raise (ValueError msg), s1) ->
     upload_qkview file_path description visible_in_gui f5_support_case
       share_with_case_owner h s = (Ok ("Error uploading QKView: " ++ msg), s1)).
Proof.
  intros Hne Hex. split.
  - intros d Hop. apply nonempty_true in Hne.
    unfold upload_qkview. unfold bind at 1, ask. rewrite Hne, Hex. cbn [negb].
    unfold try_except, open_rb. unfold bind at 1 2, ask. rewrite Hop. reflexivity.
  - intros msg s1 Hop Htok.
    rewrite (upload_qkview_opened _ _ _ _ _ _ _ Hne Hex Hop).
    now rewrite (make_api_request_token_raise _ _ _ _ _ _ _ _ _ Htok).
Qed.

Lemma upload_qkview_failures_are_text_witness :
  upload_qkview "/var/tmp/box.qkview" "" "true" "" "false"
    {| environ := []; time_time := 1000;
       path_exists := fun _ => true; open_error := fun _ => None;
       remote := fun _ => TransportFailure "connection refused";
       json_dumps := Ref.dumps 0; py_repr := Ref.repr; b64encode := Ref.b64;
       unicode_upper := Ref.unicode_upper;
       status_error_str := Ref.status_str |}
    initial_store =
  (Ok "Error uploading QKView: F5_IHEALTH_CLIENT_ID and F5_IHEALTH_CLIENT_SECRET environment variables are required",
   initial_store).
Proof.
  refine (proj2 (upload_qkview_failures_are_text "/var/tmp/box.qkview" "" "true" ""
                   "false"
                   {| environ := []; time_time := 1000;
                      path_exists := fun _ => true; open_error := fun _ => None;
                      remote := fun _ => TransportFailure "connection refused";
                      json_dumps := Ref.dumps 0; py_repr := Ref.repr;
                      b64encode := Ref.b64; unicode_upper := Ref.unicode_upper;
                      status_error_str := Ref.status_str |}
                   initial_store _ _)
            missing_credentials_msg initial_store _ _).
  - discriminate.
  - reflexivity.
  - reflexivity.
  - reflexivity.
Defined.

(** X16: once the file opens and the token is there, [upload_qkview] sends
    one POST to /qkviews: the multipart part "qkview" carries the opened
    file under its base name with type application/octet-stream, and the
    form holds, in the order description, visible_in_gui, f5_support_case,
    share_with_case_owner, exactly the parameters that are not empty. *)
Theorem upload_qkview_request file_path description visible_in_gui f5_support_case
    share_with_case_owner h s tok s1 :
  file_path <> "" ->
  path_exists h file_path = true ->
  open_error h file_path = None ->
  get_auth_token h s = (Ok tok, s1) ->
  snd (upload_qkview file_path description visible_in_gui f5_support_case
         share_with_case_owner h s) =
  logged s1
    (api_request "POST" (API_BASE_URL ++ "/qkviews")
       [("Authorization", "Bearer " ++ py_str h tok);
        ("Accept", ACCEPT_HEADER);
        ("User-Agent", USER_AGENT)]
       (FormData
          (Some (present_fields
                   [("description", description); ("visible_in_gui", visible_in_gui);
                    ("f5_support_case", f5_support_case);
                    ("share_with_case_owner", share_with_case_owner)]))
          (Some [("qkview", {| part_filename := Str.basename file_path;
                               part_source := file_path;
                               part_content_type := "application/octet-stream" |})]))).
Proof.
  intros Hne Hex Hop Htok.
  rewrite (upload_qkview_opened _ _ _ _ _ _ _ Hne Hex Hop).
  match goal with
  | |- context [make_api_request ?m ?e ?a ?d ?f h s] =>
      pose proof (gateway_sends m e a d f h s tok s1 eq_refl Htok) as Hg;
      destruct (make_api_request m e a d f h s) as [[v | e0] s2]
  end; simpl in Hg; subst s2; reflexivity.
Qed.

Lemma upload_qkview_request_witness :
  snd (upload_qkview "/var/tmp/box.qkview" "lab" "true" "" "false"
    {| environ := sample_env; time_time := 1000;
       path_exists := fun _ => true; open_error := fun _ => None;
       remote := granting "T" 3600 (plain_response 202 "text/plain" "");
       json_dumps := Ref.dumps 0; py_repr := Ref.repr; b64encode := Ref.b64;
       unicode_upper := Ref.unicode_upper;
       status_error_str := Ref.status_str |}
    (store_with_token "T" 5000)) =
  logged (store_with_token "T" 5000)
    (api_request "POST" "https://ihealth2-api.f5.com/qkview-analyzer/api/qkviews"
       [("Authorization", "Bearer T");
        ("Accept", "application/vnd.f5.ihealth.api");
        ("User-Agent", "F5iHealthMCPServer/1.0")]
       (FormData
          (Some [("description", "lab"); ("visible_in_gui", "true");
                 ("share_with_case_owner", "false")])
          (Some [("qkview", {| part_filename := "box.qkview";
                               part_source := "/var/tmp/box.qkview";
                               part_content_type := "application/octet-stream" |})]))).
Proof.
  apply (upload_qkview_request "/var/tmp/box.qkview" "lab" "true" "" "false"
           {| environ := sample_env; time_time := 1000;
              path_exists := fun _ => true; open_error := fun _ => None;
              remote := granting "T" 3600 (plain_response 202 "text/plain" "");
              json_dumps := Ref.dumps 0; py_repr := Ref.repr; b64encode := Ref.b64;
              unicode_upper := Ref.unicode_upper;
              status_error_str := Ref.status_str |}
           (store_with_token "T" 5000) (JStr "T") (store_with_token "T" 5000)).
  - discriminate.
  - reflexivity.
  - reflexivity.
  - reflexivity.
Defined.

(** X17: [update_qkview_metadata] with a non-empty [qkview_id] sends only
    the parameters that are not empty, in the order description,
    visible_in_gui, f5_support_case, non_f5_case, as the form of one PUT to
    /qkviews/<qkview_id>, without files; when all four are empty it sends
    nothing and answers "Error: At least one metadata field must be provided
    to update". *)
Theorem update_qkview_metadata_fields qkview_id description visible_in_gui
    f5_support_case non_f5_case h s :
  qkview_id <> "" ->
  (present_fields [("description", description); ("visible_in_gui", visible_in_gui);
                   ("f5_support_case", f5_support_case);
                   ("non_f5_case", non_f5_case)] = [] ->
   update_qkview_metadata qkview_id description visible_in_gui f5_support_case
     non_f5_case h s =
   (Ok "Error: At least one metadata field must be provided to update", s)) /\
  (forall tok s1,
     present_fields [("description", description); ("visible_in_gui", visible_in_gui);
                     ("f5_support_case", f5_support_case);
                     ("non_f5_case", non_f5_case)] <> [] ->
     get_auth_token h s = (Ok tok, s1) ->
     snd (update_qkview_metadata qkview_id description visible_in_gui f5_support_case
            non_f5_case h s) =
     logged s1
       (api_request "PUT" (API_BASE_URL ++ "/qkviews/" ++ qkview_id)
          [("Authorization", "Bearer " ++ py_str h tok);
           ("Accept", ACCEPT_HEADER);
           ("User-Agent", USER_AGENT)]
          (FormData
             (Some (present_fields
                      [("description", description); ("visible_in_gui", visible_in_gui);
                       ("f5_support_case", f5_support_case);
                       ("non_f5_case", non_f5_case)]))
             None))).
Proof.
  intros Hne. apply nonempty_true in Hne.
  unfold update_qkview_metadata. rewrite Hne. cbn [negb]. cbv zeta.
  rewrite set_if_update. split.
  - intros ->. reflexivity.
  - intros tok s1 Hsome Htok.
    destruct (present_fields _) as [| kv rest] eqn:Ef; [contradiction |].
    rewrite call_api_store.
    now rewrite (gateway_sends "PUT" _ _ _ _ h s tok s1 eq_refl Htok).
Qed.

Lemma update_qkview_metadata_fields_witness :
  update_qkview_metadata "42" "" "" "" "" bare_host initial_store =
    (Ok "Error: At least one metadata field must be provided to update", initial_store) /\
  snd (update_qkview_metadata "42" "" "false" "" "C-1"
         (sample_host sample_env 1000 (granting "T" 3600 (plain_response 200 "text/plain" "")))
         (store_with_token "T" 5000)) =
    logged (store_with_token "T" 5000)
      (api_request "PUT" "https://ihealth2-api.f5.com/qkview-analyzer/api/qkviews/42"
         [("Authorization", "Bearer T");
          ("Accept", "application/vnd.f5.ihealth.api");
          ("User-Agent", "F5iHealthMCPServer/1.0")]
         (FormData (Some [("visible_in_gui", "false"); ("non_f5_case", "C-1")]) None)).
Proof.
  split.
  - refine (proj1 (update_qkview_metadata_fields "42" "" "" "" "" bare_host
                     initial_store _) _).
    + discriminate.
    + reflexivity.
  - refine (proj2 (update_qkview_metadata_fields "42" "" "false" "" "C-1"
                     (sample_host sample_env 1000
                        (granting "T" 3600 (plain_response 200 "text/plain" "")))
                     (store_with_token "T" 5000) _)
              (JStr "T") (store_with_token "T" 5000) _ _).
    + discriminate.
    + discriminate.
    + reflexivity.
Defined.

(** ** Tools: further local checks and shortcuts *)

(** X18: the tools with a second required parameter check it after
    [qkview_id] and before any request: with a non-empty [qkview_id] and an
    empty [file_hash], [command_name] or [search_term] they answer "Error:
    <name> parameter is required" and leave the store untouched. *)
Theorem second_parameter_required qkview_id h s :
  qkview_id <> "" ->
  get_qkview_file qkview_id "" h s =
    (Ok "Error: file_hash parameter is required", s) /\
  get_command_output qkview_id "" h s =
    (Ok "Error: command_name parameter is required", s) /\
  search_qkview_logs qkview_id "" h s =
    (Ok "Error: search_term parameter is required", s).
Proof.
  intros Hne. apply nonempty_true in Hne.
  unfold get_qkview_file, get_command_output, search_qkview_logs.
  rewrite Hne. repeat split.
Qed.

Lemma second_parameter_required_witness :
  get_qkview_file "42" "" bare_host initial_store =
    (Ok "Error: file_hash parameter is required", initial_store) /\
  get_command_output "42" "" bare_host initial_store =
    (Ok "Error: command_name parameter is required", initial_store) /\
  search_qkview_logs "42" "" bare_host initial_store =
    (Ok "Error: search_term parameter is required", initial_store).
Proof.
  apply (second_parameter_required "42" bare_host initial_store). discriminate.
Defined.

(** X19: [download_original_qkview] is [get_qkview_file] with the file hash
    "qkview": the two calls behave alike in every host and store. *)
Theorem download_original_is_get_file_qkview qkview_id h s :
  download_original_qkview qkview_id h s = get_qkview_file qkview_id "qkview" h s.
Proof.
  unfold download_original_qkview, get_qkview_file.
  destruct (negb (Str.nonempty qkview_id)); reflexivity.
Qed.

Lemma diagnostics_accept_not_default output_format :
  diagnostics_accept output_format <> ACCEPT_HEADER.
Proof.
  unfold diagnostics_accept.
  repeat match goal with
         | |- context [String.eqb ?a ?b] => destruct (String.eqb a b)
         end; discriminate.
Qed.

Lemma get_qkview_diagnostics_log qkview_id diagnostic_set output_format h s tok s1 :
  qkview_id <> "" ->
  get_auth_token h s = (Ok tok, s1) ->
  net_log (snd (get_qkview_diagnostics qkview_id diagnostic_set output_format h s)) =
  (net_log s1 ++
   [api_request "GET"
      (API_BASE_URL ++ "/qkviews/" ++ qkview_id ++ "/diagnostics" ++
       diagnostics_query diagnostic_set)
      (gateway_headers h tok (diagnostics_accept output_format))
      NoBody])%list.
Proof.
  intros Hne Htok. apply nonempty_true in Hne.
  unfold get_qkview_diagnostics. rewrite Hne. cbv zeta. cbn [negb].
  rewrite call_api_store, (gateway_get_log _ _ _ _ _ _ Htok).
  rewrite diagnostics_endpoint, diagnostics_media_type, diagnostics_accept_nonempty.
  reflexivity.
Qed.

(** X20: [get_diagnostics_hits] and [get_diagnostics_misses] request the
    same URL as [get_qkview_diagnostics] with the set "hit", respectively
    "miss", but not the same representation: the shortcuts send the default
    Accept header application/vnd.f5.ihealth.api, which
    [get_qkview_diagnostics] sends for no output format. *)
Theorem diagnostics_shortcuts_differ_in_accept qkview_id output_format h s tok s1 :
  qkview_id <> "" ->
  get_auth_token h s = (Ok tok, s1) ->
  map req_url (net_log (snd (get_diagnostics_hits qkview_id h s))) =
    map req_url (net_log (snd (get_qkview_diagnostics qkview_id "hit" output_format h s))) /\
  map req_url (net_log (snd (get_diagnostics_misses qkview_id h s))) =
    map req_url (net_log (snd (get_qkview_diagnostics qkview_id "miss" output_format h s))) /\
  net_log (snd (get_diagnostics_hits qkview_id h s)) =
    (net_log s1 ++
     [api_request "GET" (API_BASE_URL ++ "/qkviews/" ++ qkview_id ++ "/diagnostics?set=hit")
        [("Authorization", ("Bearer " ++ py_str h tok)%string);
         ("Accept", ACCEPT_HEADER); ("User-Agent", USER_AGENT)] NoBody])%list /\
  net_log (snd (get_diagnostics_hits qkview_id h s)) <>
    net_log (snd (get_qkview_diagnostics qkview_id "hit" output_format h s)) /\
  net_log (snd (get_diagnostics_misses qkview_id h s)) <>
    net_log (snd (get_qkview_diagnostics qkview_id "miss" output_format h s)).
Proof.
  intros Hne Htok.
  rewrite !(get_qkview_diagnostics_log _ _ _ _ _ _ _ Hne Htok).
  apply nonempty_true in Hne.
  unfold get_diagnostics_hits, get_diagnostics_misses. rewrite Hne. cbn [negb].
  rewrite !call_api_store, !(gateway_get_log _ _ _ _ _ _ Htok).
  cbn [Str.nonempty diagnostics_query String.eqb Ascii.eqb Bool.eqb].
  cbv iota.
  repeat split.
  - now rewrite !map_app.
  - now rewrite !map_app.
  - intros E. apply app_inv_head in E. inversion E as [Hacc].
    symmetry in Hacc. now apply diagnostics_accept_not_default in Hacc.
  - intros E. apply app_inv_head in E. inversion E as [Hacc].
    symmetry in Hacc. now apply diagnostics_accept_not_default in Hacc.
Qed.

Lemma diagnostics_shortcuts_differ_in_accept_witness :
  map req_url (net_log (snd (get_diagnostics_hits "42"
    (sample_host sample_env 1000 (granting "T" 3600 (plain_response 200 "text/plain" "")))
    (store_with_token "T" 5000)))) =
  map req_url (net_log (snd (get_qkview_diagnostics "42" "hit" "json"
    (sample_host sample_env 1000 (granting "T" 3600 (plain_response 200 "text/plain" "")))
    (store_with_token "T" 5000)))) /\
  net_log (snd (get_diagnostics_hits "42"
    (sample_host sample_env 1000 (granting "T" 3600 (plain_response 200 "text/plain" "")))
    (store_with_token "T" 5000))) <>
  net_log (snd (get_qkview_diagnostics "42" "hit" "json"
    (sample_host sample_env 1000 (granting "T" 3600 (plain_response 200 "text/plain" "")))
    (store_with_token "T" 5000))).
Proof.
  pose proof (diagnostics_shortcuts_differ_in_accept "42" "json"
    (sample_host sample_env 1000 (granting "T" 3600 (plain_response 200 "text/plain" "")))
    (store_with_token "T" 5000) (JStr "T") (store_with_token "T" 5000)) as H.
  split; [refine (proj1 (H _ _)) | refine (proj1 (proj2 (proj2 (proj2 (H _ _)))))];
    solve [discriminate | reflexivity].
Defined.

(** ** Where requests go *)

Lemma prefix_app (a b : string) : String.prefix a (a ++ b) = true.
Proof.
  induction a as [| c a IH]; simpl; [now destruct b |].
  destruct (ascii_dec c c) as [_ | Hn]; [exact IH | contradiction].
Qed.

Lemma get_credentials_ok_inv h s creds s1 :
  get_credentials h s = (Ok creds, s1) ->
  creds = (env_client_id h, env_client_secret h).
Proof.
  unfold get_credentials. run_monad.
  fold (env_client_id h). fold (env_client_secret h).
  destruct (negb _ || negb _); intros E; inversion E; reflexivity.
Qed.

Lemma get_auth_token_addressed h s :
  exists l, Forall (tool_request h) l /\
            net_log (snd (get_auth_token h s)) = (net_log s ++ l)%list.
Proof.
  destruct (truthy (token (_token_cache s)) &&
            (time_time h <? expires_at (_token_cache s) - 60)) eqn:Eu.
  - apply cache_usable_test in Eu. rewrite (get_auth_token_hit h s Eu).
    exists []. split; [constructor | simpl; now rewrite app_nil_r].
  - assert (Hst : ~ cache_usable h s).
    { rewrite cache_usable_test, Eu. discriminate. }
    rewrite (get_auth_token_miss h s Hst). unfold bind.
    pose proof (get_credentials_store h s) as Hc.
    destruct (get_credentials h s) as [[creds | e] s0] eqn:Eg; simpl in Hc; subst s0.
    + apply get_credentials_ok_inv in Eg. subst creds. cbn [fst snd].
      exists [token_request h (env_client_id h) (env_client_secret h)].
      split; [| apply exchange_log].
      constructor; [now left | constructor].
    + exists []. split; [constructor | simpl; now rewrite app_nil_r].
Qed.

Lemma make_api_request_addressed method endpoint accept_type data files h s :
  exists l, Forall (tool_request h) l /\
            net_log (snd (make_api_request method endpoint accept_type data files h s)) =
            (net_log s ++ l)%list.
Proof.
  destruct (get_auth_token_addressed h s) as (l1 & Hl1 & E1).
  destruct (get_auth_token h s) as [[tok | e] s1] eqn:Htok; simpl in E1.
  - rewrite (make_api_request_token_ok _ _ _ _ _ _ _ _ _ Htok).
    destruct (supported_method h method) eqn:Hm.
    + destruct (dispatch_supported method (API_BASE_URL ++ endpoint)
                  (gateway_headers h tok
                     (if Str.nonempty accept_type then accept_type else ACCEPT_HEADER))
                  data files h s1 Hm) as (req & Hurl & Hhd & Hd).
      exists (l1 ++ [req])%list. split.
      * apply Forall_app. split; [exact Hl1 |].
        constructor; [| constructor]. right. split.
        -- rewrite Hurl. apply prefix_app.
        -- exists (py_str h tok). rewrite Hhd. reflexivity.
      * pose proof (gateway_after_send req h s1) as Hg.
        unfold try_except, bind in *. rewrite Hd, Hg. simpl.
        rewrite E1. now rewrite app_assoc.
    + exists l1. split; [exact Hl1 |].
      unfold try_except, bind. rewrite (dispatch_unsupported _ _ _ _ _ _ _ Hm).
      exact E1.
  - rewrite (make_api_request_token_raise _ _ _ _ _ _ _ _ _ Htok).
    exists l1. split; [exact Hl1 | exact E1].
Qed.

Lemma call_api_addressed method endpoint accept_type data files h s :
  exists l, Forall (tool_request h) l /\
            net_log (snd (call_api method endpoint accept_type data files h s)) =
            (net_log s ++ l)%list.
Proof.
  rewrite call_api_store. apply make_api_request_addressed.
Qed.

Lemma nothing_sent h (s : store) :
  exists l, Forall (tool_request h) l /\ net_log s = (net_log s ++ l)%list.
Proof. exists []. split; [constructor | now rewrite app_nil_r]. Qed.

Lemma upload_qkview_addressed file_path description visible_in_gui f5_support_case
    share_with_case_owner h s :
  exists l, Forall (tool_request h) l /\
            net_log (snd (upload_qkview file_path description visible_in_gui
                            f5_support_case share_with_case_owner h s)) =
            (net_log s ++ l)%list.
Proof.
  unfold upload_qkview. unfold bind at 1, ask.
  destruct (negb (Str.nonempty file_path)); [apply nothing_sent |].
  destruct (negb (path_exists h file_path)); [apply nothing_sent |].
  unfold try_except, open_rb. unfold bind at 1 2, ask.
  destruct (open_error h file_path) as [d |]; [apply nothing_sent |].
  unfold ret at 1. unfold bind at 1.
  match goal with
  | |- context [make_api_request ?m ?e ?a ?d ?f h s] =>
      destruct (make_api_request_addressed m e a d f h s) as (l & Hl & E);
      destruct (make_api_request m e a d f h s) as [[v | e0] s1]
  end; exists l; split; auto.
Qed.

Lemma validate_credentials_addressed h s :
  exists l, Forall (tool_request h) l /\
            net_log (snd (validate_credentials h s)) = (net_log s ++ l)%list.
Proof.
  destruct (get_auth_token_addressed h s) as (l & Hl & E).
  exists l. split; [exact Hl |].
  unfold validate_credentials. unfold bind at 1, ask. unfold try_except, bind.
  destruct (get_auth_token h s) as [[tok | e] s1]; simpl in E.
  - destruct (truthy tok); exact E.
  - destruct e; exact E.
Qed.

(** X21: every request a tool call sends is either the token request,
    built from the configured credentials and addressed to the token URL,
    or a request whose URL starts with the API base URL and whose
    Authorization header is a Bearer token: the Basic credentials never go
    to the API, and nothing is sent anywhere else. *)
Theorem invoke_requests_are_addressed c h s :
  exists l, Forall (tool_request h) l /\
            net_log (snd (invoke c h s)) = (net_log s ++ l)%list.
Proof.
  destruct c; cbn [invoke];
    try apply call_api_addressed;
    try apply upload_qkview_addressed;
    try apply validate_credentials_addressed;
    match goal with
    | |- context [net_log (snd (?f _ _ _))] => unfold f
    | |- context [net_log (snd (?f _ _ _ _))] => unfold f
    | |- context [net_log (snd (?f _ _ _ _ _))] => unfold f
    | |- context [net_log (snd (?f _ _ _ _ _ _ _))] => unfold f
    end;
    cbv zeta;
    repeat match goal with
           | |- context [if ?b then _ else _] => destruct b; [apply nothing_sent |]
           end;
    try apply call_api_addressed.
Qed.

(** ** What a tool says about a JSON answer *)

Lemma call_api_formats method endpoint accept_type data files h s v :
  fst (make_api_request method endpoint accept_type data files h s) = Ok v ->
  fst (call_api method endpoint accept_type data files h s) = Ok (format_response h v).
Proof.
  unfold call_api. unfold bind at 1 2, ask.
  destruct (make_api_request method endpoint accept_type data files h s) as [[w | e] s1];
    simpl; intros E; inversion E; reflexivity.
Qed.

Lemma gateway_json method endpoint accept_type data files h s tok s1 r v :
  get_auth_token h s = (Ok tok, s1) ->
  supported_method h method = true ->
  api_answers h endpoint r ->
  200 <= status_code r <= 299 ->
  status_code r <> 202 ->
  Str.contains "application/json" (content_type_of r) = true \/
  Str.contains "application/vnd.f5.ihealth.api+json" (content_type_of r) = true ->
  json_body r = inr v ->
  fst (make_api_request method endpoint accept_type data files h s) = Ok v.
Proof.
  intros Htok Hm Hans Hst H202 Hj Hv.
  rewrite (gateway_answer _ _ _ _ _ _ _ _ _ _ Htok Hm Hans).
  unfold try_except, classify, raise_for_status, is_success, response_json.
  fold (content_type_of r).
  apply Z.eqb_neq in H202. rewrite H202.
  assert (Es : (200 <=? status_code r) && (status_code r <=? 299) = true).
  { apply andb_true_iff. rewrite !Z.leb_le. lia. }
  rewrite Es. run_monad.
  assert (Ej : Str.contains "application/json" (content_type_of r) ||
               Str.contains "application/vnd.f5.ihealth.api+json" (content_type_of r)
               = true).
  { apply orb_true_iff. exact Hj. }
  rewrite Ej, Hv. reflexivity.
Qed.

(** X22: what a gateway-backed tool answers for a successful JSON response
    depends on the decoded value.  An object with a top-level key "error" is
    reported like a failure ("Error: ..." and "Details: ..." taken from the
    keys "error" and "details"), the rest of the object being dropped; any
    other object is printed by [json.dumps]; a value that is not an object
    (a list, a string, a number, a boolean, null) is printed by [str], not
    as JSON. *)
Theorem json_answer_text method endpoint accept_type data files h s tok s1 r :
  get_auth_token h s = (Ok tok, s1) ->
  supported_method h method = true ->
  api_answers h endpoint r ->
  200 <= status_code r <= 299 ->
  status_code r <> 202 ->
  Str.contains "application/json" (content_type_of r) = true \/
  Str.contains "application/vnd.f5.ihealth.api+json" (content_type_of r) = true ->
  (forall f err,
     json_body r = inr (JObj f) -> dict_get "error" f = Some err ->
     fst (call_api method endpoint accept_type data files h s) =
     Ok ("Error: " ++ py_str h err ++ newline ++ "Details: " ++
         py_str h (dict_get_default "details" f (JStr "No additional details")))) /\
  (forall f,
     json_body r = inr (JObj f) -> dict_get "error" f = None ->
     fst (call_api method endpoint accept_type data files h s) =
     Ok (json_dumps h (JObj f))) /\
  (forall v,
     json_body r = inr v -> (forall f, v <> JObj f) ->
     fst (call_api method endpoint accept_type data files h s) =
     Ok (py_str h v)).
Proof.
  intros Htok Hm Hans Hst H202 Hj. repeat split.
  - intros f err Hv He.
    rewrite (call_api_formats _ _ _ _ _ _ _ _
               (gateway_json _ _ _ _ _ _ _ _ _ _ _ Htok Hm Hans Hst H202 Hj Hv)).
    unfold format_response. rewrite He. reflexivity.
  - intros f Hv He.
    rewrite (call_api_formats _ _ _ _ _ _ _ _
               (gateway_json _ _ _ _ _ _ _ _ _ _ _ Htok Hm Hans Hst H202 Hj Hv)).
    unfold format_response. rewrite He. reflexivity.
  - intros v Hv Hno.
    rewrite (call_api_formats _ _ _ _ _ _ _ _
               (gateway_json _ _ _ _ _ _ _ _ _ _ _ Htok Hm Hans Hst H202 Hj Hv)).
    destruct v as [| b | n | x | l | f]; try reflexivity.
    now destruct (Hno f).
Qed.

Lemma json_answer_text_witness :
  fst (call_api "GET" "/qkviews/42" "" None None
         (sample_host sample_env 1000
            (granting "T" 3600
               (json_response 200 "{...}"
                  (JObj [("id", JNum 42); ("error", JStr "partial data")]))))
         (store_with_token "T" 5000)) =
  Ok ("Error: partial data" ++ newline ++ "Details: No additional details").
Proof.
  refine (proj1 (json_answer_text "GET" "/qkviews/42" "" None None
           (sample_host sample_env 1000
              (granting "T" 3600
                 (json_response 200 "{...}"
                    (JObj [("id", JNum 42); ("error", JStr "partial data")]))))
           (store_with_token "T" 5000) (JStr "T") (store_with_token "T" 5000)
           (json_response 200 "{...}"
              (JObj [("id", JNum 42); ("error", JStr "partial data")]))
           _ _ _ _ _ _)
          [("id", JNum 42); ("error", JStr "partial data")] (JStr "partial data") _ _).
  - reflexivity.
  - reflexivity.
  - intros req Hurl. cbn [remote sample_host]. unfold granting. rewrite Hurl. reflexivity.
  - cbn. split; discriminate.
  - discriminate.
  - left. reflexivity.
  - reflexivity.
  - reflexivity.
Defined.

(** ** Consecutive calls *)

Lemma get_auth_token_ok_cache h s tok s1 :
  get_auth_token h s = (Ok tok, s1) -> token (_token_cache s1) = tok.
Proof.
  intros Hok.
  destruct (truthy (token (_token_cache s)) &&
            (time_time h <? expires_at (_token_cache s) - 60)) eqn:Eu.
  - apply cache_usable_test in Eu. rewrite (get_auth_token_hit h s Eu) in Hok.
    now inversion Hok.
  - assert (Hst : ~ cache_usable h s).
    { rewrite cache_usable_test, Eu. discriminate. }
    rewrite (get_auth_token_miss h s Hst) in Hok. unfold bind in Hok.
    destruct (get_credentials h s) as [[creds | e] s0]; [| discriminate].
    assert (Hf : fst (exchange (time_time h) (fst creds) (snd creds) h s0) = Ok tok)
      by now rewrite Hok.
    destruct (exchange_ok _ _ _ _ _ _ Hf) as (r & f & _ & _ & _ & _ & Hc).
    now rewrite Hok in Hc.
Qed.

(** X23: after a gateway call that obtained a non-empty token, a second
    gateway call made strictly before the stored expiry minus 60 seconds
    performs no token exchange: for a supported method it sends exactly one
    request, the API request, with the same Bearer token, and it leaves the
    cache as it is. *)
Theorem second_call_skips_exchange method endpoint accept_type data files h s tok s1
    method2 endpoint2 accept_type2 data2 files2 h2 :
  get_auth_token h s = (Ok tok, s1) ->
  truthy tok = true ->
  time_time h2 < expires_at (_token_cache s1) - 60 ->
  supported_method h2 method2 = true ->
  snd (make_api_request method2 endpoint2 accept_type2 data2 files2 h2
         (snd (make_api_request method endpoint accept_type data files h s))) =
  logged (snd (make_api_request method endpoint accept_type data files h s))
    (api_request (upper h2 method2) (API_BASE_URL ++ endpoint2)
       [("Authorization", "Bearer " ++ py_str h2 tok);
        ("Accept", if Str.nonempty accept_type2 then accept_type2 else ACCEPT_HEADER);
        ("User-Agent", USER_AGENT)]
       (gateway_body (upper h2 method2) data2 files2)).
Proof.
  intros Htok Htr Hlt Hm2.
  destruct (make_api_request_effect method endpoint accept_type data files h s)
    as (l & _ & E).
  rewrite Htok in E. cbn [snd] in E.
  set (s' := snd (make_api_request method endpoint accept_type data files h s)) in *.
  assert (Hc : _token_cache s' = _token_cache s1) by now rewrite E.
  assert (Hhit : get_auth_token h2 s' = (Ok tok, s')).
  { rewrite <- (get_auth_token_ok_cache h s tok s1 Htok), <- Hc.
    apply get_auth_token_hit. split.
    - rewrite Hc, (get_auth_token_ok_cache h s tok s1 Htok). exact Htr.
    - rewrite Hc. exact Hlt. }
  exact (gateway_sends method2 endpoint2 accept_type2 data2 files2 h2 s' tok s'
           Hm2 Hhit).
Qed.

Lemma second_call_skips_exchange_witness :
  snd (make_api_request "GET" "/qkviews/42" "" None None
         (sample_host sample_env 4000
            (granting "U" 3600 (plain_response 200 "text/plain" "")))
         (snd (make_api_request "GET" "/qkviews" "" None None
                 (sample_host sample_env 1000
                    (granting "T" 3600 (plain_response 200 "text/plain" "")))
                 initial_store))) =
  logged (snd (make_api_request "GET" "/qkviews" "" None None
                 (sample_host sample_env 1000
                    (granting "T" 3600 (plain_response 200 "text/plain" "")))
                 initial_store))
    (api_request "GET" "https://ihealth2-api.f5.com/qkview-analyzer/api/qkviews/42"
       [("Authorization", "Bearer T");
        ("Accept", "application/vnd.f5.ihealth.api");
        ("User-Agent", "F5iHealthMCPServer/1.0")]
       NoBody).
Proof.
  apply (second_call_skips_exchange "GET" "/qkviews" "" None None
           (sample_host sample_env 1000
              (granting "T" 3600 (plain_response 200 "text/plain" "")))
           initial_store (JStr "T")
           {| _token_cache := {| token := JStr "T"; expires_at := 4600 |};
              net_log := [token_request
                            (sample_host sample_env 1000 (fun _ => TransportFailure ""))
                            "id" "secret"] |}
           "GET" "/qkviews/42" "" None None
           (sample_host sample_env 4000
              (granting "U" 3600 (plain_response 200 "text/plain" "")))).
  - reflexivity.
  - reflexivity.
  - reflexivity.
  - reflexivity.
Defined.
